(** * Truck-Route backend: HOS schedule builder and ELD log generator

    A shallow embedding of [route_planner/hos_calculator.py] and
    [route_planner/log_generator.py], and the properties of the schedule
    builder and the log partitioner established on it.

    Numbers.  Python floats (hours, miles, coordinates) are embedded as exact
    rationals [Q]; equalities between computed quantities are stated with
    [==] (Qeq).  A naive [datetime] is the integer number of microseconds
    since 0001-01-01 00:00:00, a [date] is the number of whole days since
    that instant, and [timedelta(hours=h)] rounds [h] hours to the nearest
    microsecond, ties to even, as the datetime module does. *)

From Stdlib Require Import QArith Qminmax Lqa ZArith Lia.
From stdpp Require Import gmap strings list pretty.

(** ** Python values used by both modules *)

Module Py.

Inductive exn : Type := IndexError | KeyError | TypeError | ZeroDivisionError.

(** Result of running a loop with a bound on its iterations: the value
    returned, the exception raised, or the bound reached. *)
Inductive outcome (A : Type) : Type :=
| Done (a : A)
| Raised (e : exn)
| OutOfFuel.
Arguments Done {A} a.
Arguments Raised {A} e.
Arguments OutOfFuel {A}.

Definition bind {A B : Type} (o : outcome A) (k : A -> outcome B) : outcome B :=
  match o with
  | Done a => k a
  | Raised e => Raised e
  | OutOfFuel => OutOfFuel
  end.

(** Whether a run returned, and what it returned ([d] when it did not). *)
Definition is_done {A : Type} (o : outcome A) : bool :=
  match o with Done _ => true | _ => false end.

Definition result_or {A : Type} (d : A) (o : outcome A) : A :=
  match o with Done a => a | _ => d end.

(** [x < y] on numbers. *)
Definition Qlt_bool (x y : Q) : bool := negb (Qle_bool y x).

(** [min(a, b, c, d, e)]: the first of the smallest arguments. *)
Definition min5 (a b c d e : Q) : Q := Qmin (Qmin (Qmin (Qmin a b) c) d) e.

(** [x / y], which raises ZeroDivisionError when [y] is zero. *)
Definition truediv (x y : Q) : outcome Q :=
  if Qeq_bool y 0 then Raised ZeroDivisionError else Done (x / y)%Q.

(** [round(x)]: the nearest integer, ties to the even one. *)
Definition round (x : Q) : Z :=
  let n := Qnum x in
  let d := Z.pos (Qden x) in
  let f := (n / d)%Z in
  match (2 * (n mod d) ?= d)%Z with
  | Lt => f
  | Gt => (f + 1)%Z
  | Eq => if Z.even f then f else (f + 1)%Z
  end.

(** [l[i]] on a list. *)
Definition index {A : Type} (l : list A) (i : nat) : outcome A :=
  match l !! i with
  | Some x => Done x
  | None => Raised IndexError
  end.

(** [l[-1]]. *)
Definition index_last {A : Type} (l : list A) : outcome A :=
  match last l with
  | Some x => Done x
  | None => Raised IndexError
  end.

End Py.

Import Py.

#[global] Instance outcome_ret : MRet outcome := @Done.
#[global] Instance outcome_bind : MBind outcome := fun A B k o => bind o k.
#[global] Instance outcome_fmap : FMap outcome :=
  fun A B f o => bind o (fun a => Done (f a)).

(** ** The datetime module *)

Module Datetime.

Definition MICROS_PER_SECOND : Z := 1000000.
Definition MICROS_PER_HOUR : Z := 3600000000.
Definition MICROS_PER_DAY : Z := 86400000000.

(** [datetime.timedelta(hours=h)], in microseconds. *)
Definition timedelta_hours (h : Q) : Z :=
  Py.round (h * inject_Z MICROS_PER_HOUR)%Q.

(** [datetime.timedelta(days=n)]. *)
Definition timedelta_days (n : Z) : Z := (n * MICROS_PER_DAY)%Z.

(** [t.replace(minute=0, second=0, microsecond=0)]. *)
Definition replace_to_hour (t : Z) : Z := (t - t mod MICROS_PER_HOUR)%Z.

(** [t.date()], [t.time()] (microseconds since midnight) and
    [datetime.combine(d, tm)]. *)
Definition date (t : Z) : Z := (t / MICROS_PER_DAY)%Z.
Definition time (t : Z) : Z := (t mod MICROS_PER_DAY)%Z.
Definition combine (d tm : Z) : Z := (d * MICROS_PER_DAY + tm)%Z.

(** [td.total_seconds()]. *)
Definition total_seconds (td : Z) : Q := (inject_Z td / inject_Z MICROS_PER_SECOND)%Q.

End Datetime.

(** ** Data model: the dictionaries exchanged by the modules *)

(** A location, as built by [geocode_address] (with a display name) or by
    the schedule builder for an intermediate point (without). *)
Record Location : Type := mkLocation {
  address : string;
  lat : Q;
  lng : Q;
  display_name : option string
}.

(** A leg of the route, as built by [calculate_route_segment]. *)
Record RouteSegment : Type := mkRouteSegment {
  start_location : Location;
  end_location : Location;
  distance : Q;
  duration : Q;
  polyline : string
}.

Inductive StopType : Type :=
| start | break | fuel | pickup | dropoff | rest | final.

Record Stop : Type := mkStop {
  stop_location : Location;
  arrival_time : Z;
  departure_time : Z;
  stop_type : StopType;
  stop_duration : Q
}.

(** A driven piece of a leg, with its timestamps. *)
Record ScheduledSegment : Type := mkScheduledSegment {
  sched_start_location : Location;
  sched_end_location : Location;
  sched_distance : Q;
  sched_duration : Q;
  start_time : Z;
  end_time : Z
}.

(** The values stored under the keys of [route_data] and of the schedule. *)
Inductive value : Type :=
| VFloat (x : Q)
| VStr (s : string)
| VLocations (l : list Location)
| VRoute (l : list RouteSegment)
| VStops (l : list Stop)
| VSegments (l : list ScheduledSegment)
| VDatetime (t : Z).

(** A dictionary with string keys. *)
Abbreviation dict := (gmap string value).

(** [d[k]]. *)
Definition getitem (d : dict) (k : string) : outcome value :=
  match d !! k with
  | Some v => Done v
  | None => Raised KeyError
  end.

(** ** hos_calculator.py *)

Module HOS.

(** HOS constants for property-carrying drivers. *)
Definition MAX_DRIVING_HOURS : Q := 11.
Definition MAX_DUTY_WINDOW : Q := 14.
Definition MAX_DRIVING_WITHOUT_BREAK : Q := 8.
Definition MIN_BREAK_DURATION : Q := 1 # 2.
Definition MIN_REST_DURATION : Q := 10.
Definition PICKUP_DROPOFF_DURATION : Q := 1.
Definition MAX_CYCLE_HOURS : Q := 70.
Definition FUELING_INTERVAL_MILES : Q := 1000.
Definition FUELING_DURATION : Q := 1 # 2.

(** The variables of [calculate_schedule] that live across the segment
    loop. *)
Record Vars : Type := mkVars {
  current_time : Z;
  available_driving_hours : Q;
  available_window_hours : Q;
  hours_since_break : Q;
  remaining_cycle_hours : Q;
  stops : list Stop;
  modified_segments : list ScheduledSegment;
  accumulated_distance : Q;
  last_fuel_distance : Q;
  segment_index : nat
}.

(** All the variables at the head of the inner [while not
    segment_processed] loop: the ones above and those bound by the body
    of the segment loop. *)
Record State : Type := mkState {
  vars :> Vars;
  remaining_segment : RouteSegment;
  current_location : Location;
  next_location : Location;
  is_pickup : bool;
  is_dropoff : bool;
  segment_processed : bool
}.

(** *** Assignments *)

Definition with_vars (f : Vars -> Vars) (s : State) : State :=
  mkState (f (vars s)) (remaining_segment s) (current_location s)
    (next_location s) (is_pickup s) (is_dropoff s) (segment_processed s).

Definition set_current_time (t : Z) (v : Vars) : Vars :=
  mkVars t (available_driving_hours v) (available_window_hours v)
    (hours_since_break v) (remaining_cycle_hours v) (stops v)
    (modified_segments v) (accumulated_distance v) (last_fuel_distance v)
    (segment_index v).

Definition set_available_driving_hours (x : Q) (v : Vars) : Vars :=
  mkVars (current_time v) x (available_window_hours v)
    (hours_since_break v) (remaining_cycle_hours v) (stops v)
    (modified_segments v) (accumulated_distance v) (last_fuel_distance v)
    (segment_index v).

Definition set_available_window_hours (x : Q) (v : Vars) : Vars :=
  mkVars (current_time v) (available_driving_hours v) x
    (hours_since_break v) (remaining_cycle_hours v) (stops v)
    (modified_segments v) (accumulated_distance v) (last_fuel_distance v)
    (segment_index v).

Definition set_hours_since_break (x : Q) (v : Vars) : Vars :=
  mkVars (current_time v) (available_driving_hours v)
    (available_window_hours v) x (remaining_cycle_hours v) (stops v)
    (modified_segments v) (accumulated_distance v) (last_fuel_distance v)
    (segment_index v).

Definition set_remaining_cycle_hours (x : Q) (v : Vars) : Vars :=
  mkVars (current_time v) (available_driving_hours v)
    (available_window_hours v) (hours_since_break v) x (stops v)
    (modified_segments v) (accumulated_distance v) (last_fuel_distance v)
    (segment_index v).

Definition set_stops (l : list Stop) (v : Vars) : Vars :=
  mkVars (current_time v) (available_driving_hours v)
    (available_window_hours v) (hours_since_break v)
    (remaining_cycle_hours v) l (modified_segments v)
    (accumulated_distance v) (last_fuel_distance v) (segment_index v).

Definition set_modified_segments (l : list ScheduledSegment) (v : Vars) : Vars :=
  mkVars (current_time v) (available_driving_hours v)
    (available_window_hours v) (hours_since_break v)
    (remaining_cycle_hours v) (stops v) l (accumulated_distance v)
    (last_fuel_distance v) (segment_index v).

Definition set_accumulated_distance (x : Q) (v : Vars) : Vars :=
  mkVars (current_time v) (available_driving_hours v)
    (available_window_hours v) (hours_since_break v)
    (remaining_cycle_hours v) (stops v) (modified_segments v) x
    (last_fuel_distance v) (segment_index v).

Definition set_last_fuel_distance (x : Q) (v : Vars) : Vars :=
  mkVars (current_time v) (available_driving_hours v)
    (available_window_hours v) (hours_since_break v)
    (remaining_cycle_hours v) (stops v) (modified_segments v)
    (accumulated_distance v) x (segment_index v).

Definition set_segment_index (i : nat) (v : Vars) : Vars :=
  mkVars (current_time v) (available_driving_hours v)
    (available_window_hours v) (hours_since_break v)
    (remaining_cycle_hours v) (stops v) (modified_segments v)
    (accumulated_distance v) (last_fuel_distance v) i.

Definition set_remaining_segment (r : RouteSegment) (s : State) : State :=
  mkState (vars s) r (current_location s) (next_location s) (is_pickup s)
    (is_dropoff s) (segment_processed s).

Definition set_current_location (l : Location) (s : State) : State :=
  mkState (vars s) (remaining_segment s) l (next_location s) (is_pickup s)
    (is_dropoff s) (segment_processed s).

Definition set_is_pickup (b : bool) (s : State) : State :=
  mkState (vars s) (remaining_segment s) (current_location s)
    (next_location s) b (is_dropoff s) (segment_processed s).

Definition set_is_dropoff (b : bool) (s : State) : State :=
  mkState (vars s) (remaining_segment s) (current_location s)
    (next_location s) (is_pickup s) b (segment_processed s).

Definition set_segment_processed (b : bool) (s : State) : State :=
  mkState (vars s) (remaining_segment s) (current_location s)
    (next_location s) (is_pickup s) (is_dropoff s) b.

(** [stops.append({...}); current_time += timedelta(hours=hours)]: the
    stop starts at the current time and lasts [hours]. *)
Definition append_stop (loc : Location) (ty : StopType) (hours : Q)
    (v : Vars) : Vars :=
  let departure := (current_time v + Datetime.timedelta_hours hours)%Z in
  set_current_time departure
    (set_stops (stops v ++ [mkStop loc (current_time v) departure ty hours]) v).

(** *** The body of the inner loop, statement by statement *)

(** Lines 113-125: the mandatory break of the 8-hour rule. *)
Definition check_break (s : State) : State :=
  if Qle_bool MAX_DRIVING_WITHOUT_BREAK (hours_since_break s) then
    with_vars (fun v =>
      set_available_window_hours (available_window_hours v - MIN_BREAK_DURATION)%Q
        (set_hours_since_break 0
           (append_stop (current_location s) break MIN_BREAK_DURATION v))) s
  else s.

(** Lines 128-140: the fueling stop. *)
Definition distance_since_last_fuel (s : State) : Q :=
  (accumulated_distance s - last_fuel_distance s)%Q.

Definition check_fuel (s : State) : State :=
  if Qle_bool FUELING_INTERVAL_MILES (distance_since_last_fuel s) then
    with_vars (fun v =>
      set_last_fuel_distance (accumulated_distance v)
        (set_available_window_hours (available_window_hours v - FUELING_DURATION)%Q
           (append_stop (current_location s) fuel FUELING_DURATION v))) s
  else s.

(** Lines 143-155: the pickup activity. *)
Definition handle_pickup (s : State) : State :=
  if is_pickup s then
    set_is_pickup false
      (with_vars (fun v =>
         set_remaining_cycle_hours (remaining_cycle_hours v - PICKUP_DROPOFF_DURATION)%Q
           (set_available_window_hours (available_window_hours v - PICKUP_DROPOFF_DURATION)%Q
              (append_stop (next_location s) pickup PICKUP_DROPOFF_DURATION v))) s)
  else s.

(** Lines 157-169: the dropoff activity. *)
Definition handle_dropoff (s : State) : State :=
  if is_dropoff s then
    set_is_dropoff false
      (with_vars (fun v =>
         set_remaining_cycle_hours (remaining_cycle_hours v - PICKUP_DROPOFF_DURATION)%Q
           (set_available_window_hours (available_window_hours v - PICKUP_DROPOFF_DURATION)%Q
              (append_stop (next_location s) dropoff PICKUP_DROPOFF_DURATION v))) s)
  else s.

(** Lines 172-178. *)
Definition max_driving_time (s : State) : Q :=
  min5 (available_driving_hours s)
       (available_window_hours s)
       (duration (remaining_segment s))
       (MAX_DRIVING_WITHOUT_BREAK - hours_since_break s)%Q
       (remaining_cycle_hours s).

(** Lines 182-196: the rest period. *)
Definition take_rest (s : State) : State :=
  with_vars (fun v =>
    set_hours_since_break 0
      (set_available_window_hours MAX_DUTY_WINDOW
         (set_available_driving_hours MAX_DRIVING_HOURS
            (append_stop (current_location s) rest MIN_REST_DURATION v)))) s.

(** Line 199.  On the driving branch the divisor is positive
    ([max_driving_time] is positive and at most the remaining duration),
    so the division never raises there. *)
Definition segment_progress (s : State) : Q :=
  (max_driving_time s / duration (remaining_segment s))%Q.

Definition distance_covered (s : State) : Q :=
  (distance (remaining_segment s) * segment_progress s)%Q.

(** Lines 208-219. *)
Definition intermediate_point (s : State) : Location :=
  mkLocation ("Intermediate point " +:+ pretty (segment_index s))
    ((lat (current_location s) + lat (next_location s)) / 2)%Q
    ((lng (current_location s) + lng (next_location s)) / 2)%Q
    None.

Definition partial_segment (s : State) : ScheduledSegment :=
  mkScheduledSegment (current_location s) (intermediate_point s)
    (distance_covered s) (max_driving_time s)
    (current_time s)
    (current_time s + Datetime.timedelta_hours (max_driving_time s))%Z.

(** Lines 238-245. *)
Definition complete_segment (s : State) : ScheduledSegment :=
  mkScheduledSegment (current_location s) (next_location s)
    (distance (remaining_segment s)) (duration (remaining_segment s))
    (current_time s)
    (current_time s + Datetime.timedelta_hours (duration (remaining_segment s)))%Z.

(** The four clock updates and the advance of the current time shared by
    lines 231-235 and 250-254. *)
Definition drive_hours (h : Q) (v : Vars) : Vars :=
  set_remaining_cycle_hours (remaining_cycle_hours v - h)%Q
    (set_hours_since_break (hours_since_break v + h)%Q
       (set_available_window_hours (available_window_hours v - h)%Q
          (set_available_driving_hours (available_driving_hours v - h)%Q
             (set_current_time (current_time v + Datetime.timedelta_hours h)%Z v)))).

(** Lines 206-235: the segment is split. *)
Definition drive_partial (s : State) : State :=
  let r := remaining_segment s in
  set_remaining_segment
    (mkRouteSegment (start_location r) (end_location r)
       (distance r - distance_covered s)%Q
       (duration r - max_driving_time s)%Q (polyline r))
    (set_current_location (intermediate_point s)
       (with_vars (fun v =>
          drive_hours (max_driving_time s)
            (set_modified_segments (modified_segments v ++ [partial_segment s])
               (set_accumulated_distance
                  (accumulated_distance v + distance_covered s)%Q v))) s)).

(** Lines 236-258: the segment is completed. *)
Definition drive_complete (s : State) : State :=
  set_segment_processed true
    (with_vars (fun v =>
       set_segment_index (S (segment_index v))
         (drive_hours (duration (remaining_segment s))
            (set_modified_segments (modified_segments v ++ [complete_segment s])
               (set_accumulated_distance
                  (accumulated_distance v + distance_covered s)%Q v)))) s).

(** Lines 171-258, after the insertions. *)
Definition drive_or_rest (s : State) : State :=
  if Qle_bool (max_driving_time s) 0 then take_rest s
  else if Qlt_bool (segment_progress s) 1 then drive_partial s
  else drive_complete s.

(** One iteration of [while not segment_processed]. *)
Definition pass (s : State) : State :=
  drive_or_rest (handle_dropoff (handle_pickup (check_fuel (check_break s)))).

(** [while not segment_processed], run for at most [gas] iterations. *)
Fixpoint process_segment (gas : nat) (s : State) : outcome State :=
  if segment_processed s then Done s
  else match gas with
       | O => OutOfFuel
       | S gas' => process_segment gas' (pass s)
       end.

(** Lines 89-108: the head of the body of the segment loop. *)
Definition begin_segment (locations : list Location)
    (segments : list RouteSegment) (v : Vars) : outcome State :=
  let total_segments := length segments in
  segment ← index segments (segment_index v);
  if (segment_index v =? 0)%nat then
    current_location ← index locations 0;
    next_location ← index locations 1;
    Done (mkState v segment current_location next_location true false false)
  else if (segment_index v =? total_segments - 1)%nat then
    current_location ← index locations 1;
    next_location ← index locations 2;
    Done (mkState v segment current_location next_location false true false)
  else
    Done (mkState v segment (start_location segment) (end_location segment)
            false false false).

(** [while segment_index < total_segments], run for at most [n]
    iterations, each inner loop for at most [gas]. *)
Fixpoint segment_loop (gas : nat) (locations : list Location)
    (segments : list RouteSegment) (n : nat) (v : Vars) : outcome Vars :=
  if (segment_index v <? length segments)%nat then
    match n with
    | O => OutOfFuel
    | S n' =>
        s ← begin_segment locations segments v;
        s' ← process_segment gas s;
        segment_loop gas locations segments n' (vars s')
    end
  else Done v.

(** Lines 61-86: the variables before the segment loop.  [now] is the
    value of [datetime.datetime.now()]. *)
Definition initial_vars (now : Z) (current_cycle_hours : Q)
    (first_location : Location) : Vars :=
  let start_time := Datetime.replace_to_hour now in
  mkVars start_time MAX_DRIVING_HOURS MAX_DUTY_WINDOW 0
    (MAX_CYCLE_HOURS - current_cycle_hours)%Q
    [mkStop first_location start_time start_time start 0]
    [] 0 0 0.

(** [HOSCalculator(current_cycle_hours).calculate_schedule(route_data)],
    with the clock reading [now] and at most [gas] iterations of each
    loop. *)
Definition calculate_schedule (gas : nat) (now : Z) (current_cycle_hours : Q)
    (route_data : dict) : outcome dict :=
  let result := route_data in
  locations_v ← getitem route_data "locations";
  match locations_v with
  | VLocations locations =>
      first_location ← index locations 0;
      let v0 := initial_vars now current_cycle_hours first_location in
      segments_v ← getitem route_data "segments";
      match segments_v with
      | VRoute segments =>
          v ← segment_loop gas locations segments gas v0;
          final_location ← index_last locations;
          let stops :=
            stops v ++ [mkStop final_location (current_time v) (current_time v) final 0] in
          Done (<["end_time" := VDatetime (current_time v)]>
                (<["start_time" := VDatetime (Datetime.replace_to_hour now)]>
                 (<["segments" := VSegments (modified_segments v)]>
                  (<["stops" := VStops stops]> result))))
      | _ => Raised TypeError
      end
  | _ => Raised TypeError
  end.

(** [calculate_hos_compliant_schedule(route_data, current_cycle_hours)]. *)
Definition calculate_hos_compliant_schedule (gas : nat) (now : Z)
    (route_data : dict) (current_cycle_hours : Q) : outcome dict :=
  calculate_schedule gas now current_cycle_hours route_data.

End HOS.

(** ** log_generator.py *)

Module LogGen.

(** The four duty-status keys of a log entry. *)
Inductive Activity : Type := OffDuty | SleeperBerth | Driving | OnDuty.

Record LogEntry : Type := mkLogEntry {
  date : Z;
  off_duty : list (Q * Q);
  sleeper_berth : list (Q * Q);
  driving : list (Q * Q);
  on_duty : list (Q * Q);
  total_miles : Z;
  carrier : string;
  main_office : string;
  home_terminal : string;
  shipping_docs : string;
  remarks : string
}.

(** [log_entry[activity_type].append(interval)]. *)
Definition append_interval (a : Activity) (iv : Q * Q) (e : LogEntry) : LogEntry :=
  match a with
  | OffDuty =>
      mkLogEntry (date e) (off_duty e ++ [iv]) (sleeper_berth e) (driving e)
        (on_duty e) (total_miles e) (carrier e) (main_office e)
        (home_terminal e) (shipping_docs e) (remarks e)
  | SleeperBerth =>
      mkLogEntry (date e) (off_duty e) (sleeper_berth e ++ [iv]) (driving e)
        (on_duty e) (total_miles e) (carrier e) (main_office e)
        (home_terminal e) (shipping_docs e) (remarks e)
  | Driving =>
      mkLogEntry (date e) (off_duty e) (sleeper_berth e) (driving e ++ [iv])
        (on_duty e) (total_miles e) (carrier e) (main_office e)
        (home_terminal e) (shipping_docs e) (remarks e)
  | OnDuty =>
      mkLogEntry (date e) (off_duty e) (sleeper_berth e) (driving e)
        (on_duty e ++ [iv]) (total_miles e) (carrier e) (main_office e)
        (home_terminal e) (shipping_docs e) (remarks e)
  end.

Definition set_total_miles (m : Z) (e : LogEntry) : LogEntry :=
  mkLogEntry (date e) (off_duty e) (sleeper_berth e) (driving e) (on_duty e)
    m (carrier e) (main_office e) (home_terminal e) (shipping_docs e)
    (remarks e).

Definition set_shipping_docs (d : string) (e : LogEntry) : LogEntry :=
  mkLogEntry (date e) (off_duty e) (sleeper_berth e) (driving e) (on_duty e)
    (total_miles e) (carrier e) (main_office e) (home_terminal e) d
    (remarks e).

Definition set_remarks (r : string) (e : LogEntry) : LogEntry :=
  mkLogEntry (date e) (off_duty e) (sleeper_berth e) (driving e) (on_duty e)
    (total_miles e) (carrier e) (main_office e) (home_terminal e)
    (shipping_docs e) r.

(** Lines 121-149. *)
Definition add_activity_to_log (log_entry : LogEntry) (activity_type : Activity)
    (start_time end_time day_start : Z) : LogEntry :=
  let day_end := (day_start + Datetime.timedelta_days 1)%Z in
  let activity_start := Z.max start_time day_start in
  let activity_end := Z.min end_time day_end in
  if ((day_end <=? activity_start) || (activity_end <=? day_start))%Z then log_entry
  else
    let start_hour := (Datetime.total_seconds (activity_start - day_start) / 3600)%Q in
    let end_hour := (Datetime.total_seconds (activity_end - day_start) / 3600)%Q in
    append_interval activity_type (start_hour, end_hour) log_entry.

(** Lines 53-64: the stops of the day. *)
Definition log_stop (day_start day_end : Z) (log_entry : LogEntry) (stop : Stop)
    : LogEntry :=
  if ((day_end <=? arrival_time stop) || (departure_time stop <? day_start))%Z
  then log_entry
  else
    match stop_type stop with
    | rest | break =>
        add_activity_to_log log_entry OffDuty (arrival_time stop)
          (departure_time stop) day_start
    | pickup | dropoff | fuel =>
        add_activity_to_log log_entry OnDuty (arrival_time stop)
          (departure_time stop) day_start
    | start | final => log_entry
    end.

(** Lines 67-82: one scheduled segment of the day.  The pair is the log
    entry and the running value of [log_entry['total_miles']]. *)
Definition log_segment (day_start day_end : Z) (acc : LogEntry * Q)
    (segment : ScheduledSegment) : outcome (LogEntry * Q) :=
  let '(log_entry, miles) := acc in
  if ((day_end <=? start_time segment) || (end_time segment <? day_start))%Z
  then Done acc
  else
    let log_entry :=
      add_activity_to_log log_entry Driving (start_time segment)
        (end_time segment) day_start in
    let segment_start := Z.max (start_time segment) day_start in
    let segment_end := Z.min (end_time segment) day_end in
    if (start_time segment <? end_time segment)%Z then
      segment_day_proportion ←
        truediv (Datetime.total_seconds (segment_end - segment_start))
                (Datetime.total_seconds (end_time segment - start_time segment));
      Done (log_entry, (miles + sched_distance segment * segment_day_proportion)%Q)
    else Done (log_entry, miles).

(** [for segment in schedule_data['segments']: ...]. *)
Fixpoint log_segments (day_start day_end : Z) (acc : LogEntry * Q)
    (segments : list ScheduledSegment) : outcome (LogEntry * Q) :=
  match segments with
  | [] => Done acc
  | segment :: segments' =>
      acc' ← log_segment day_start day_end acc segment;
      log_segments day_start day_end acc' segments'
  end.

(** *** Formatting *)

Definition two_digits (n : Z) : string :=
  if (n <? 10)%Z then "0" +:+ pretty n else pretty n.

Definition four_digits (n : Z) : string :=
  if (n <? 10)%Z then "000" +:+ pretty n
  else if (n <? 100)%Z then "00" +:+ pretty n
  else if (n <? 1000)%Z then "0" +:+ pretty n
  else pretty n.

(** [t.strftime('%H:%M')]. *)
Definition strftime_HM (t : Z) : string :=
  let tm := Datetime.time t in
  two_digits (tm / Datetime.MICROS_PER_HOUR)
    +:+ ":" +:+ two_digits ((tm / 60000000) mod 60).

(** Year, month and day of a date of the proleptic Gregorian calendar. *)
Definition civil (d : Z) : Z * Z * Z :=
  let z := (d + 306)%Z in
  let era := (z / 146097)%Z in
  let doe := (z mod 146097)%Z in
  let yoe := ((doe - doe / 1460 + doe / 36524 - doe / 146096) / 365)%Z in
  let doy := (doe - (365 * yoe + yoe / 4 - yoe / 100))%Z in
  let mp := ((5 * doy + 2) / 153)%Z in
  let day := (doy - (153 * mp + 2) / 5 + 1)%Z in
  let month := if (mp <? 10)%Z then (mp + 3)%Z else (mp - 9)%Z in
  let year := (yoe + era * 400 + (if (month <=? 2)%Z then 1 else 0))%Z in
  (year, month, day).

(** [d.strftime('%Y%m%d')]. *)
Definition strftime_Ymd (d : Z) : string :=
  let '(year, month, day) := civil d in
  four_digits year +:+ two_digits month +:+ two_digits day.

(** [sep.join(l)]. *)
Definition join (sep : string) (l : list string) : string := String.concat sep l.

(** Lines 85-93: the remark of one stop, if any. *)
Definition stop_remark (current_date : Z) (stop : Stop) : list string :=
  if (Datetime.date (arrival_time stop) =? current_date)%Z then
    match stop_type stop with
    | pickup =>
        ["Pickup at " +:+ address (stop_location stop) +:+ " at "
           +:+ strftime_HM (arrival_time stop)]
    | dropoff =>
        ["Dropoff at " +:+ address (stop_location stop) +:+ " at "
           +:+ strftime_HM (arrival_time stop)]
    | fuel => ["Fueling at " +:+ strftime_HM (arrival_time stop)]
    | _ => []
    end
  else [].

(** Lines 99-104: the shipping document of one stop, if any. *)
Definition stop_shipping_doc (current_date : Z) (stop : Stop) : list string :=
  let on_date :=
    ((Datetime.date (arrival_time stop) <=? current_date)
     && (current_date <=? Datetime.date (departure_time stop)))%Z in
  match stop_type stop with
  | pickup => if on_date then ["PU" +:+ strftime_Ymd current_date] else []
  | dropoff => if on_date then ["DO" +:+ strftime_Ymd current_date] else []
  | _ => []
  end.

(** Lines 33-113: the log entry of one day. *)
Definition day_log (stops : list Stop) (segments : list ScheduledSegment)
    (current_date : Z) : outcome LogEntry :=
  let log_entry :=
    mkLogEntry current_date [] [] [] [] 0 "Sample Carrier"
      "Main Office Address" "Home Terminal Address" "N/A" "No remarks" in
  let day_start := Datetime.combine current_date 0 in
  let day_end := (day_start + Datetime.timedelta_days 1)%Z in
  let log_entry := foldl (log_stop day_start day_end) log_entry stops in
  '(log_entry, miles) ← log_segments day_start day_end (log_entry, 0%Q) segments;
  let remarks := concat (map (stop_remark current_date) stops) in
  let log_entry :=
    match remarks with
    | [] => log_entry
    | _ => set_remarks (join ". " remarks) log_entry
    end in
  let shipping_docs := concat (map (stop_shipping_doc current_date) stops) in
  let log_entry :=
    match shipping_docs with
    | [] => log_entry
    | _ => set_shipping_docs (join ", " shipping_docs) log_entry
    end in
  Done (set_total_miles (Py.round miles) log_entry).

(** [while current_date <= end_date], for at most [n] iterations. *)
Fixpoint days_loop (n : nat) (stops : list Stop)
    (segments : list ScheduledSegment) (current_date end_date : Z)
    (logs : list LogEntry) : outcome (list LogEntry) :=
  if (current_date <=? end_date)%Z then
    match n with
    | O => OutOfFuel
    | S n' =>
        log_entry ← day_log stops segments current_date;
        days_loop n' stops segments (current_date + 1)%Z end_date
          (logs ++ [log_entry])
    end
  else Done logs.

(** Lines 25-30. *)
Definition last_date (end_time : Z) : Z :=
  let end_date := Datetime.date end_time in
  if (0 <? Datetime.time end_time)%Z then (end_date + 1)%Z else end_date.

(** [generate_log_sheets(schedule_data)].  The day loop advances
    [current_date] by one day per iteration, so it is run with the number
    of days from the first date to the last. *)
Definition generate_log_sheets (schedule_data : dict) : outcome (list LogEntry) :=
  start_v ← getitem schedule_data "start_time";
  match start_v with
  | VDatetime start_time =>
      let current_date := Datetime.date start_time in
      end_v ← getitem schedule_data "end_time";
      match end_v with
      | VDatetime end_time =>
          let end_date := last_date end_time in
          let n := Z.to_nat (end_date + 1 - current_date) in
          match n with
          | O => Done []
          | _ =>
              stops_v ← getitem schedule_data "stops";
              segments_v ← getitem schedule_data "segments";
              match stops_v, segments_v with
              | VStops stops, VSegments segments =>
                  days_loop n stops segments current_date end_date []
              | _, _ => Raised TypeError
              end
          end
      | _ => Raised TypeError
      end
  | _ => Raised TypeError
  end.

End LogGen.

(** ** Vocabulary of the properties *)

Import HOS.

(** The insertions of one pass, in the order of the code: break, fuel,
    pickup, dropoff. *)
Definition insertions (s : State) : State :=
  handle_dropoff (handle_pickup (check_fuel (check_break s))).

(** A pass drives when the drivable time left after its insertions is
    positive, and splits the segment when moreover that time is short of
    the remaining duration. *)
Definition drives (s : State) : Prop := (0 < max_driving_time (insertions s))%Q.

Definition splits (s : State) : Prop :=
  drives s /\ (segment_progress (insertions s) < 1)%Q.

(** The route read by [calculate_schedule] from its dictionary. *)
Definition route_of (route_data : dict) (locations : list Location)
    (segments : list RouteSegment) : Prop :=
  route_data !! "locations" = Some (VLocations locations) /\
  route_data !! "segments" = Some (VRoute segments).

(** A valid route: at least three locations, at least two segments, every
    duration positive. *)
Definition valid_route (locations : list Location)
    (segments : list RouteSegment) : Prop :=
  (3 <= length locations)%nat /\ (2 <= length segments)%nat /\
  Forall (fun g => (0 < duration g)%Q) segments.

(** The states at the head of the inner loop in a run of
    [calculate_schedule]: the one built for the first segment, the one a
    pass leaves while the segment is not processed, and the one built for
    the next segment once it is. *)
Inductive visited (now : Z) (current_cycle_hours : Q)
    (locations : list Location) (segments : list RouteSegment) : State -> Prop :=
| visited_first first_location s :
    index locations 0 = Done first_location ->
    (0 < length segments)%nat ->
    begin_segment locations segments
      (initial_vars now current_cycle_hours first_location) = Done s ->
    visited now current_cycle_hours locations segments s
| visited_pass s :
    visited now current_cycle_hours locations segments s ->
    segment_processed s = false ->
    visited now current_cycle_hours locations segments (pass s)
| visited_next s s' :
    visited now current_cycle_hours locations segments s ->
    segment_processed s = true ->
    (segment_index s < length segments)%nat ->
    begin_segment locations segments (vars s) = Done s' ->
    visited now current_cycle_hours locations segments s'.

(** Both clocks of the 11-hour and 14-hour rules are non-negative. *)
Definition clocks_nonneg (v : Vars) : Prop :=
  (0 <= available_driving_hours v)%Q /\ (0 <= available_window_hours v)%Q.

(** The events of a schedule, stops and driven segments, on one timeline. *)
Inductive event : Type :=
| EStop (p : Stop)
| ESegment (g : ScheduledSegment).

Definition event_start (e : event) : Z :=
  match e with EStop p => arrival_time p | ESegment g => start_time g end.

Definition event_end (e : event) : Z :=
  match e with EStop p => departure_time p | ESegment g => end_time g end.

Fixpoint stops_of (l : list event) : list Stop :=
  match l with
  | [] => []
  | EStop p :: l' => p :: stops_of l'
  | ESegment _ :: l' => stops_of l'
  end.

Fixpoint segments_of (l : list event) : list ScheduledSegment :=
  match l with
  | [] => []
  | EStop _ :: l' => segments_of l'
  | ESegment g :: l' => g :: segments_of l'
  end.

(** From time [t] on, every event starts no earlier than the previous one
    ended, and ends no earlier than it starts. *)
Fixpoint chronological (t : Z) (l : list event) : Prop :=
  match l with
  | [] => True
  | e :: l' =>
      (t <= event_start e)%Z /\ (event_start e <= event_end e)%Z /\
      chronological (event_end e) l'
  end.

(** The end of the last event of a timeline that begins at [t]. *)
Fixpoint finish (t : Z) (l : list event) : Z :=
  match l with
  | [] => t
  | e :: l' => finish (event_end e) l'
  end.

(** A stop leaves when its duration has elapsed since its arrival. *)
Definition stop_timed (p : Stop) : Prop :=
  departure_time p = (arrival_time p + Datetime.timedelta_hours (stop_duration p))%Z.

(** Total distance of a list of scheduled segments. *)
Definition sum_distance (l : list ScheduledSegment) : Q :=
  foldr (fun g acc => (sched_distance g + acc)%Q) 0%Q l.

(** The position at the fraction [p] of the way from [a] to [b]. *)
Definition interpolate (p a b : Q) : Q := (a + p * (b - a))%Q.

(** What the insertions of a pass leave untouched: the driven segments,
    the leg being driven, the locations, the driving clock, the distance
    and the progress through the route. *)
Record same_drive_data (s s' : State) : Prop := {
  same_modified_segments : modified_segments s' = modified_segments s;
  same_remaining_segment : remaining_segment s' = remaining_segment s;
  same_segment_index : segment_index s' = segment_index s;
  same_current_location : current_location s' = current_location s;
  same_next_location : next_location s' = next_location s;
  same_segment_processed : segment_processed s' = segment_processed s;
  same_available_driving_hours :
    available_driving_hours s' = available_driving_hours s;
  same_accumulated_distance : accumulated_distance s' = accumulated_distance s
}.

(** *** Sample routes *)

Definition loc_A : Location := mkLocation "A" 0 0 (Some "Depot").
Definition loc_B : Location := mkLocation "B" 4 8 (Some "Shipper").
Definition loc_C : Location := mkLocation "C" 10 20 (Some "Receiver").
Definition sample_locations : list Location := [loc_A; loc_B; loc_C].

(** A route of two legs with the given miles and hours. *)
Definition two_legs (d1 t1 d2 t2 : Q) : list RouteSegment :=
  [mkRouteSegment loc_A loc_B d1 t1 "a"; mkRouteSegment loc_B loc_C d2 t2 "b"].

Definition route_dict (segments : list RouteSegment) : dict :=
  <["locations" := VLocations sample_locations]>
    (<["segments" := VRoute segments]>
       (<["total_distance" := VFloat (foldr (fun g a => distance g + a)%Q 0%Q segments)]>
          (<["total_duration" := VFloat (foldr (fun g a => duration g + a)%Q 0%Q segments)]>
             (<["polyline" := VStr "ab"]> ∅)))).

(** A short leg to the shipper and 500 miles in 9 hours to the receiver. *)
Definition day_trip : list RouteSegment := two_legs 10 (1 # 4) 500 9.

(** A first leg of 32 hours. *)
Definition long_haul : list RouteSegment := two_legs 1600 32 50 1.

(** 4400 miles in 11 hours, then 50 miles in one hour. *)
Definition fast_legs : list RouteSegment := two_legs 4400 11 50 1.

(** The state built for the first leg of [fast_legs], and the state in
    which its second pass reaches the fueling statement: 3200 miles driven
    and no fueling yet. *)
Definition fast_legs_start : State :=
  mkState (initial_vars 0 0 loc_A) (mkRouteSegment loc_A loc_B 4400 11 "a")
    loc_A loc_B true false false.

Definition fuel_due : State := check_break (pass fast_legs_start).

(** The schedule of [day_trip] for a driver with a fresh cycle, the clock
    read at the beginning of the first hour; the same with the clock read
    early in that hour; and with the clock read at its last microsecond and
    fewer iterations allowed. *)
Abbreviation day_trip_schedule :=
  (result_or (∅ : dict) (calculate_schedule 8 0 0 (route_dict day_trip))).

Abbreviation day_trip_schedule_early :=
  (result_or (∅ : dict)
     (calculate_hos_compliant_schedule 8 1234567 (route_dict day_trip) 0)).

Abbreviation day_trip_schedule_late :=
  (result_or (∅ : dict)
     (calculate_hos_compliant_schedule 5 3599999999 (route_dict day_trip) 0)).

(** The state built for the first leg of [long_haul]. *)
Definition long_haul_start : State :=
  mkState (initial_vars 0 0 loc_A) (mkRouteSegment loc_A loc_B 1600 32 "a")
    loc_A loc_B true false false.

(** The state built for the next leg once the segment of [s] is
    processed ([s] itself if [begin_segment] raises). *)
Definition next_state (locations : list Location)
    (segments : list RouteSegment) (s : State) : State :=
  result_or s (begin_segment locations segments (vars s)).

(** The state built for the last leg of [fast_legs], after the two passes
    that drive its first leg. *)
Definition fast_legs_last : State :=
  next_state sample_locations fast_legs (pass (pass fast_legs_start)).

(** The stops and the driven segments of [v] are the events of one
    timeline that begins at [t0], is chronological and ends at the current
    time, and every stop is timed by its duration. *)
Definition on_timeline (t0 : Z) (v : Vars) : Prop :=
  exists trace : list event,
    stops_of trace = stops v /\
    segments_of trace = modified_segments v /\
    chronological t0 trace /\
    finish t0 trace = current_time v /\
    Forall stop_timed (stops v).

(** Number of duty-status intervals of a log entry. *)
Definition activity_count (e : LogGen.LogEntry) : nat :=
  length (LogGen.off_duty e) + length (LogGen.sleeper_berth e) +
  length (LogGen.driving e) + length (LogGen.on_duty e).

(** The schedule of [day_trip], the clock read on 2024-01-15 at 06:20:00
    (day 738899 of the calendar). *)
Abbreviation monday_schedule :=
  (result_or (∅ : dict)
     (calculate_schedule 8 63840896400000000 0 (route_dict day_trip))).

(** A schedule of one hour whose first segment has no duration. *)
Definition halted : ScheduledSegment :=
  mkScheduledSegment loc_A loc_A 100 0 1000 1000.

Definition one_hour : ScheduledSegment :=
  mkScheduledSegment loc_A loc_B 55 1 0 3600000000.

Definition halted_schedule : dict :=
  <["start_time" := VDatetime 0]>
    (<["end_time" := VDatetime 3600000000]>
       (<["stops" := VStops []]>
          (<["segments" := VSegments ([] ++ halted :: [one_hour])]> ∅))).

(** The statements of a pass are kept folded by [simpl]. *)
Arguments insertions : simpl never.
Arguments pass : simpl never.
Arguments max_driving_time : simpl never.
Arguments segment_progress : simpl never.
Arguments distance_covered : simpl never.
Arguments intermediate_point : simpl never.
Arguments Datetime.timedelta_hours : simpl never.
Arguments LogGen.log_segment : simpl never.
Arguments LogGen.day_log : simpl never.

(** ** Runs that return *)

Lemma done_result {A : Type} (d : A) (o : outcome A) :
  is_done o = true -> o = Done (result_or d o).
Proof. destruct o; simpl; congruence. Qed.

Lemma outcome_fmap_compose {A B C : Type} (f : A -> B) (g : B -> C) (o : outcome A) :
  (fun a => g (f a)) <$> o = g <$> (f <$> o).
Proof. by destruct o. Qed.

(** ** Numbers and time *)

Section Numbers.

Local Open Scope Q_scope.

Lemma Qlt_bool_iff (x y : Q) : Qlt_bool x y = true <-> x < y.
Proof.
  unfold Qlt_bool. rewrite negb_true_iff. split; intros H.
  - apply Qnot_le_lt. intros Hle. apply Qle_bool_iff in Hle. congruence.
  - destruct (Qle_bool y x) eqn:E; [|done].
    apply Qle_bool_iff in E. apply Qle_not_lt in E. contradiction.
Qed.

Lemma Qle_bool_false (x y : Q) : Qle_bool x y = false <-> y < x.
Proof.
  split; intros H.
  - apply Qnot_le_lt. intros Hle. apply Qle_bool_iff in Hle. congruence.
  - destruct (Qle_bool x y) eqn:E; [|done].
    apply Qle_bool_iff in E. apply Qle_not_lt in E. contradiction.
Qed.

Lemma Qlt_bool_false (x y : Q) : Qlt_bool x y = false <-> y <= x.
Proof.
  unfold Qlt_bool. rewrite negb_false_iff. apply Qle_bool_iff.
Qed.

(** The minimum of the five limits is below each of them. *)
Lemma min5_le (a b c d e : Q) :
  min5 a b c d e <= a /\ min5 a b c d e <= b /\ min5 a b c d e <= c /\
  min5 a b c d e <= d /\ min5 a b c d e <= e.
Proof.
  unfold min5.
  pose proof (Q.le_min_l a b). pose proof (Q.le_min_r a b).
  pose proof (Q.le_min_l (Qmin a b) c). pose proof (Q.le_min_r (Qmin a b) c).
  pose proof (Q.le_min_l (Qmin (Qmin a b) c) d).
  pose proof (Q.le_min_r (Qmin (Qmin a b) c) d).
  pose proof (Q.le_min_l (Qmin (Qmin (Qmin a b) c) d) e).
  pose proof (Q.le_min_r (Qmin (Qmin (Qmin a b) c) d) e).
  repeat split; lra.
Qed.

Lemma round_nonneg (x : Q) : 0 <= x -> (0 <= Py.round x)%Z.
Proof.
  intros Hx. unfold Py.round.
  assert (Hn : (0 <= Qnum x)%Z) by (unfold Qle in Hx; simpl in Hx; lia).
  assert (Hf : (0 <= Qnum x / Z.pos (Qden x))%Z) by (apply Z.div_pos; lia).
  destruct (2 * (Qnum x mod Z.pos (Qden x)) ?= Z.pos (Qden x))%Z; [|lia|lia].
  destruct (Z.even _); lia.
Qed.

(** A duration that is not negative moves the clock forward or not at
    all. *)
Lemma timedelta_hours_nonneg (h : Q) :
  0 <= h -> (0 <= Datetime.timedelta_hours h)%Z.
Proof.
  intros Hh. apply round_nonneg.
  apply Qmult_le_0_compat; [done|].
  unfold Datetime.MICROS_PER_HOUR, Qle; simpl. lia.
Qed.

(** When the progress of a pass is not below 1, the drivable time is the
    whole remaining duration. *)
Lemma full_progress (m r : Q) : 0 < m -> m <= r -> ~ m / r < 1 -> m == r.
Proof.
  intros Hm Hr Hp.
  assert (H0 : 0 < r) by lra.
  apply Qnot_lt_le in Hp.
  assert (H1 : r <= m).
  { apply (Qmult_le_compat_r _ _ r) in Hp; [|lra].
    rewrite Qmult_1_l in Hp.
    assert (E : m / r * r == m) by (field; lra).
    rewrite E in Hp. exact Hp. }
  lra.
Qed.

End Numbers.

(** ** Facts on the passes of the schedule builder *)

Lemma same_drive_data_refl (s : State) : same_drive_data s s.
Proof. by split. Qed.

Lemma same_drive_data_trans (s1 s2 s3 : State) :
  same_drive_data s1 s2 -> same_drive_data s2 s3 -> same_drive_data s1 s3.
Proof. intros [] []. split; congruence. Qed.

Lemma check_break_frame (s : State) : same_drive_data s (check_break s).
Proof. unfold check_break. destruct (Qle_bool _ _); by split. Qed.

Lemma check_fuel_frame (s : State) : same_drive_data s (check_fuel s).
Proof. unfold check_fuel. destruct (Qle_bool _ _); by split. Qed.

Lemma handle_pickup_frame (s : State) : same_drive_data s (handle_pickup s).
Proof. unfold handle_pickup. destruct (is_pickup s); by split. Qed.

Lemma handle_dropoff_frame (s : State) : same_drive_data s (handle_dropoff s).
Proof. unfold handle_dropoff. destruct (is_dropoff s); by split. Qed.

Lemma insertions_frame (s : State) : same_drive_data s (insertions s).
Proof.
  unfold insertions.
  eapply same_drive_data_trans; [apply check_break_frame|].
  eapply same_drive_data_trans; [apply check_fuel_frame|].
  eapply same_drive_data_trans; [apply handle_pickup_frame|].
  apply handle_dropoff_frame.
Qed.

(** ** The fuel stop *)

(** C8.  When the distance driven since the last fueling is at least 1000
    miles, the fueling statement of a pass appends one [fuel] stop of half
    an hour at the current location, advances the clock by half an hour,
    takes half an hour off the duty window and moves the fueling mark to
    the distance driven so far; the cycle hours, the driving hours, the
    hours since the last break and every other variable are unchanged. *)
Theorem fuel_stop_frame (s : State) :
  (FUELING_INTERVAL_MILES <= accumulated_distance s - last_fuel_distance s)%Q ->
  current_time (check_fuel s) = (current_time s + 1800000000)%Z /\
  available_window_hours (check_fuel s) = (available_window_hours s - (1 # 2))%Q /\
  remaining_cycle_hours (check_fuel s) = remaining_cycle_hours s /\
  available_driving_hours (check_fuel s) = available_driving_hours s /\
  hours_since_break (check_fuel s) = hours_since_break s /\
  last_fuel_distance (check_fuel s) = accumulated_distance s /\
  distance_since_last_fuel (check_fuel s) == 0 /\
  stops (check_fuel s) =
    stops s ++ [mkStop (current_location s) (current_time s)
                  (current_time s + 1800000000)%Z fuel (1 # 2)] /\
  same_drive_data s (check_fuel s) /\
  is_pickup (check_fuel s) = is_pickup s /\
  is_dropoff (check_fuel s) = is_dropoff s.
Proof.
  intros H. apply Qle_bool_iff in H.
  unfold check_fuel, distance_since_last_fuel. rewrite H. simpl.
  repeat split. unfold Qminus. apply Qplus_opp_r.
Qed.

Lemma fuel_stop_frame_witness :
  (FUELING_INTERVAL_MILES
     <= accumulated_distance fuel_due - last_fuel_distance fuel_due)%Q /\
  available_window_hours (check_fuel fuel_due) = ((9 # 2) - (1 # 2))%Q /\
  remaining_cycle_hours (check_fuel fuel_due) = remaining_cycle_hours fuel_due.
Proof.
  assert (H : (FUELING_INTERVAL_MILES
     <= accumulated_distance fuel_due - last_fuel_distance fuel_due)%Q)
    by (vm_compute; discriminate).
  split; [exact H|].
  pose proof (fuel_stop_frame fuel_due H) as (_ & Hw & Hc & _).
  split; [exact Hw | exact Hc].
Defined.

(** ** The fields carried through *)

(** C10.  The schedule returned for a route is the route dictionary with
    the four keys [stops], [segments], [start_time] and [end_time]
    assigned: [total_distance] and [total_duration], and every other key,
    hold what they held in the input. *)
Theorem totals_carried_through (gas : nat) (now : Z) (current_cycle_hours : Q)
    (route_data result : dict) :
  calculate_schedule gas now current_cycle_hours route_data = Done result ->
  result !! "total_distance" = route_data !! "total_distance" /\
  result !! "total_duration" = route_data !! "total_duration" /\
  forall k : string,
    k <> "stops" -> k <> "segments" -> k <> "start_time" -> k <> "end_time" ->
    result !! k = route_data !! k.
Proof.
  intros H.
  assert (Hk : forall k : string,
    k <> "stops" -> k <> "segments" -> k <> "start_time" -> k <> "end_time" ->
    result !! k = route_data !! k).
  { intros k H1 H2 H3 H4. unfold calculate_schedule in H.
    destruct (getitem route_data "locations") as [[]| |]; simpl in H; try discriminate.
    destruct (index l 0); simpl in H; try discriminate.
    destruct (getitem route_data "segments") as [[]| |]; simpl in H; try discriminate.
    destruct (segment_loop _ _ _ _ _); simpl in H; try discriminate.
    destruct (index_last l); simpl in H; try discriminate.
    injection H as <-.
    by rewrite !lookup_insert_ne. }
  split; [|split]; [apply Hk; discriminate.. | exact Hk].
Qed.

(** ** More iterations change nothing once a loop has returned *)

Lemma process_segment_more_gas (gas gas' : nat) (s s' : State) :
  process_segment gas s = Done s' -> (gas <= gas')%nat ->
  process_segment gas' s = Done s'.
Proof.
  revert gas' s. induction gas as [|gas IH]; intros gas' s H Hle; simpl in H.
  - destruct gas'; simpl; destruct (segment_processed s); congruence.
  - destruct gas' as [|gas']; [lia|]. simpl.
    destruct (segment_processed s); [exact H|].
    apply IH; [exact H | lia].
Qed.

Lemma segment_loop_more_gas (gas gas' n n' : nat) (locations : list Location)
    (segments : list RouteSegment) (v v' : Vars) :
  segment_loop gas locations segments n v = Done v' ->
  (gas <= gas')%nat -> (n <= n')%nat ->
  segment_loop gas' locations segments n' v = Done v'.
Proof.
  intros H Hg. revert n' v H.
  induction n as [|n IH]; intros n' v H Hn; simpl in H.
  - destruct n'; simpl; destruct (segment_index v <? length segments)%nat; congruence.
  - destruct n' as [|n']; [lia|]. simpl.
    destruct (segment_index v <? length segments)%nat; [|exact H].
    destruct (begin_segment locations segments v) as [s| |]; simpl in *; try discriminate.
    destruct (process_segment gas s) as [s'| |] eqn:E; simpl in H; try discriminate.
    rewrite (process_segment_more_gas _ _ _ _ E Hg). simpl.
    apply IH; [exact H | lia].
Qed.

Lemma calculate_schedule_more_gas (gas gas' : nat) (now : Z)
    (current_cycle_hours : Q) (route_data result : dict) :
  calculate_schedule gas now current_cycle_hours route_data = Done result ->
  (gas <= gas')%nat ->
  calculate_schedule gas' now current_cycle_hours route_data = Done result.
Proof.
  unfold calculate_schedule. intros H Hle.
  destruct (getitem route_data "locations") as [[]| |]; simpl in *; try discriminate.
  destruct (index l 0); simpl in *; try discriminate.
  destruct (getitem route_data "segments") as [[]| |]; simpl in *; try discriminate.
  destruct (segment_loop gas _ _ gas _) as [v| |] eqn:E; simpl in H; try discriminate.
  rewrite (segment_loop_more_gas _ _ _ _ _ _ _ _ E Hle Hle). exact H.
Qed.

(** The clock is read once and only its hour is kept. *)
Lemma calculate_schedule_hour (gas : nat) (now1 now2 : Z)
    (current_cycle_hours : Q) (route_data : dict) :
  Datetime.replace_to_hour now1 = Datetime.replace_to_hour now2 ->
  calculate_schedule gas now1 current_cycle_hours route_data =
  calculate_schedule gas now2 current_cycle_hours route_data.
Proof.
  intros H. unfold calculate_schedule, initial_vars. rewrite H. reflexivity.
Qed.

(** ** Determinism *)




Lemma totals_carried_through_witness :
  calculate_schedule 8 0 0 (route_dict day_trip) = Done day_trip_schedule /\
  day_trip_schedule !! "total_distance" = route_dict day_trip !! "total_distance" /\
  day_trip_schedule !! "total_duration" = route_dict day_trip !! "total_duration".
Proof.
  assert (H : calculate_schedule 8 0 0 (route_dict day_trip) = Done day_trip_schedule)
    by (apply done_result; reflexivity).
  split; [exact H|].
  destruct (totals_carried_through _ _ _ _ _ H) as (Hd & Ht & _).
  split; assumption.
Defined.

(** ** A spent cycle *)

Section SpentCycle.

Local Open Scope Q_scope.

(** No insertion gives cycle hours back. *)
Lemma insertions_cycle_le (s : State) :
  remaining_cycle_hours (insertions s) <= remaining_cycle_hours s.
Proof.
  unfold insertions.
  assert (Hb : remaining_cycle_hours (check_break s) = remaining_cycle_hours s)
    by (unfold check_break; destruct (Qle_bool _ _); reflexivity).
  assert (Hf : forall t, remaining_cycle_hours (check_fuel t) = remaining_cycle_hours t)
    by (intros t; unfold check_fuel; destruct (Qle_bool _ _); reflexivity).
  assert (Hp : forall t, remaining_cycle_hours (handle_pickup t) <= remaining_cycle_hours t).
  { intros t. unfold handle_pickup. destruct (is_pickup t); simpl;
      unfold PICKUP_DROPOFF_DURATION; lra. }
  assert (Hd : forall t, remaining_cycle_hours (handle_dropoff t) <= remaining_cycle_hours t).
  { intros t. unfold handle_dropoff. destruct (is_dropoff t); simpl;
      unfold PICKUP_DROPOFF_DURATION; lra. }
  eapply Qle_trans; [apply Hd|]. eapply Qle_trans; [apply Hp|].
  rewrite Hf, Hb. lra.
Qed.

(** With no cycle hours left a pass can only rest: the segment stays
    unprocessed and the cycle stays spent. *)
Lemma spent_cycle_pass (s : State) :
  remaining_cycle_hours s <= 0 -> segment_processed s = false ->
  remaining_cycle_hours (pass s) <= 0 /\ segment_processed (pass s) = false.
Proof.
  intros Hc Hp. unfold pass, drive_or_rest. fold (insertions s).
  pose proof (insertions_cycle_le s) as Hi.
  pose proof (same_segment_processed _ _ (insertions_frame s)) as Hq.
  assert (Hm : max_driving_time (insertions s) <= 0).
  { unfold max_driving_time.
    destruct (min5_le (available_driving_hours (insertions s))
                (available_window_hours (insertions s))
                (duration (remaining_segment (insertions s)))
                (MAX_DRIVING_WITHOUT_BREAK - hours_since_break (insertions s))
                (remaining_cycle_hours (insertions s))) as (_ & _ & _ & _ & H5).
    lra. }
  apply Qle_bool_iff in Hm. rewrite Hm. simpl. split; [lra | congruence].
Qed.

Lemma spent_cycle_diverges (gas : nat) (s : State) :
  remaining_cycle_hours s <= 0 -> segment_processed s = false ->
  process_segment gas s = OutOfFuel.
Proof.
  revert s. induction gas as [|gas IH]; intros s Hc Hp; simpl; rewrite Hp.
  - reflexivity.
  - destruct (spent_cycle_pass s Hc Hp). by apply IH.
Qed.


End SpentCycle.


(** ** The three ways a pass ends *)

Lemma pass_cases (s : State) :
  ((max_driving_time (insertions s) <= 0)%Q /\
   pass s = take_rest (insertions s)) \/
  (splits s /\ pass s = drive_partial (insertions s)) \/
  (drives s /\ ~ (segment_progress (insertions s) < 1)%Q /\
   pass s = drive_complete (insertions s)).
Proof.
  unfold pass, drive_or_rest, splits, drives. fold (insertions s).
  destruct (Qle_bool (max_driving_time (insertions s)) 0) eqn:E.
  - left. apply Qle_bool_iff in E. by split.
  - apply Qle_bool_false in E. right.
    destruct (Qlt_bool (segment_progress (insertions s)) 1) eqn:P.
    + left. apply Qlt_bool_iff in P. by repeat split.
    + right. apply Qlt_bool_false in P. repeat split; [done|].
      by apply Qle_not_lt.
Qed.

(** What [begin_segment] builds. *)
Lemma begin_segment_done (locations : list Location)
    (segments : list RouteSegment) (v : Vars) (s : State) :
  begin_segment locations segments v = Done s ->
  vars s = v /\ segments !! segment_index v = Some (remaining_segment s) /\
  segment_processed s = false.
Proof.
  unfold begin_segment, index. intros H.
  destruct (segments !! segment_index v) as [g|]; simpl in H; [|discriminate].
  destruct (segment_index v =? 0)%nat.
  - destruct (locations !! 0%nat); simpl in H; [|discriminate].
    destruct (locations !! 1%nat); simpl in H; [|discriminate].
    injection H as <-. by repeat split.
  - destruct (segment_index v =? length segments - 1)%nat.
    + destruct (locations !! 1%nat); simpl in H; [|discriminate].
      destruct (locations !! 2%nat); simpl in H; [|discriminate].
      injection H as <-. by repeat split.
    + injection H as <-. by repeat split.
Qed.

(** The inner loop returns at once on a processed segment. *)
Lemma process_segment_processed (gas : nat) (s : State) :
  segment_processed s = true -> process_segment gas s = Done s.
Proof. intros H. destruct gas; simpl; rewrite H; reflexivity. Qed.

(** ** Every mile of a leg is driven *)

Section Distance.

Local Open Scope Q_scope.

Lemma sum_distance_cons (g : ScheduledSegment) (l : list ScheduledSegment) :
  sum_distance (g :: l) = sched_distance g + sum_distance l.
Proof. reflexivity. Qed.

(** The inner loop, when it returns, has appended to the driven segments
    pieces whose distances add up to the distance that remained of the leg,
    and has moved to the next leg. *)
Lemma process_segment_distance (gas : nat) (s s' : State) :
  process_segment gas s = Done s' -> segment_processed s = false ->
  exists pieces : list ScheduledSegment,
    modified_segments s' = modified_segments s ++ pieces /\
    sum_distance pieces == distance (remaining_segment s) /\
    segment_index s' = S (segment_index s).
Proof.
  revert s. induction gas as [|gas IH]; intros s H Hp; simpl in H; rewrite Hp in H.
  - discriminate.
  - pose proof (insertions_frame s) as F.
    destruct (pass_cases s) as [[_ E]|[[_ E]|(_ & _ & E)]].
    + (* rest *)
      destruct (IH (pass s) H) as (pieces & Hm & Hd & Hi).
      { rewrite E. simpl. rewrite (same_segment_processed _ _ F). exact Hp. }
      exists pieces. rewrite E in Hm, Hd, Hi. simpl in Hm, Hd, Hi.
      rewrite (same_modified_segments _ _ F) in Hm.
      rewrite (same_remaining_segment _ _ F) in Hd.
      rewrite (same_segment_index _ _ F) in Hi. by repeat split.
    + (* split *)
      destruct (IH (pass s) H) as (pieces & Hm & Hd & Hi).
      { rewrite E. simpl. rewrite (same_segment_processed _ _ F). exact Hp. }
      exists (partial_segment (insertions s) :: pieces).
      rewrite E in Hm, Hd, Hi. simpl in Hm, Hd, Hi.
      rewrite (same_modified_segments _ _ F), <- app_assoc in Hm.
      rewrite (same_remaining_segment _ _ F) in Hd.
      rewrite (same_segment_index _ _ F) in Hi.
      repeat split; [exact Hm| |exact Hi].
      rewrite sum_distance_cons, Hd. simpl. ring.
    + (* completion *)
      assert (Hq : segment_processed (pass s) = true) by (rewrite E; reflexivity).
      rewrite (process_segment_processed _ _ Hq) in H.
      injection H as <-. exists [complete_segment (insertions s)].
      rewrite E. simpl.
      rewrite (same_modified_segments _ _ F), (same_remaining_segment _ _ F),
        (same_segment_index _ _ F).
      repeat split. ring.
Qed.

Lemma segment_loop_distance (gas n : nat) (locations : list Location)
    (segments : list RouteSegment) (v v' : Vars) :
  segment_loop gas locations segments n v = Done v' ->
  exists groups : list (list ScheduledSegment),
    modified_segments v' = modified_segments v ++ concat groups /\
    Forall2 (fun pieces leg => sum_distance pieces == distance leg)
      groups (drop (segment_index v) segments).
Proof.
  revert v. induction n as [|n IH]; intros v H; simpl in H;
    destruct (segment_index v <? length segments)%nat eqn:L;
    try discriminate.
  - apply Nat.ltb_ge in L. injection H as <-. exists [].
    rewrite drop_ge by lia. simpl. rewrite app_nil_r. by split.
  - destruct (begin_segment locations segments v) as [s| |] eqn:B;
      simpl in H; try discriminate.
    destruct (process_segment gas s) as [s'| |] eqn:P; simpl in H; try discriminate.
    destruct (begin_segment_done _ _ _ _ B) as (Hv & Hg & Hp).
    destruct (process_segment_distance _ _ _ P Hp) as (pieces & Hm & Hd & Hi).
    destruct (IH _ H) as (groups & Hm' & Hf).
    exists (pieces :: groups). simpl. split.
    + rewrite Hm', Hm, Hv, <- app_assoc. reflexivity.
    + rewrite (drop_S _ _ _ Hg). constructor; [exact Hd|].
      rewrite Hi, Hv in Hf. exact Hf.
  - apply Nat.ltb_ge in L. injection H as <-. exists [].
    rewrite drop_ge by lia. simpl. rewrite app_nil_r. by split.
Qed.

(** C2.  When [calculate_schedule] returns, the scheduled segments are, leg
    after leg of the route, the pieces driven of that leg, and the distances
    of the pieces of a leg add up to the distance of the leg (exactly, the
    numbers being rationals). *)
Theorem leg_distance_covered (gas : nat) (now : Z) (current_cycle_hours : Q)
    (route_data result : dict) (segments : list RouteSegment) :
  calculate_schedule gas now current_cycle_hours route_data = Done result ->
  route_data !! "segments" = Some (VRoute segments) ->
  exists groups : list (list ScheduledSegment),
    result !! "segments" = Some (VSegments (concat groups)) /\
    Forall2 (fun pieces leg => sum_distance pieces == distance leg)
      groups segments.
Proof.
  unfold calculate_schedule, getitem. intros H Hs.
  destruct (route_data !! "locations") as [[]|]; simpl in H; try discriminate.
  destruct (index l 0); simpl in H; try discriminate.
  rewrite Hs in H. simpl in H.
  destruct (segment_loop _ _ _ _ _) as [v| |] eqn:L; simpl in H; try discriminate.
  destruct (index_last l); simpl in H; try discriminate.
  injection H as <-.
  destruct (segment_loop_distance _ _ _ _ _ _ L) as (groups & Hm & Hf).
  exists groups. split; [|exact Hf].
  rewrite lookup_insert_ne by discriminate.
  rewrite lookup_insert_ne by discriminate.
  rewrite lookup_insert_eq. rewrite Hm. reflexivity.
Qed.

End Distance.

Lemma leg_distance_covered_witness :
  calculate_schedule 8 0 0 (route_dict day_trip) = Done day_trip_schedule /\
  route_dict day_trip !! "segments" = Some (VRoute day_trip) /\
  exists groups : list (list ScheduledSegment),
    day_trip_schedule !! "segments" = Some (VSegments (concat groups)) /\
    Forall2 (fun pieces leg => sum_distance pieces == distance leg)%Q
      groups day_trip.
Proof.
  assert (H : calculate_schedule 8 0 0 (route_dict day_trip) = Done day_trip_schedule)
    by (apply done_result; reflexivity).
  assert (Hs : route_dict day_trip !! "segments" = Some (VRoute day_trip))
    by (vm_compute; reflexivity).
  split; [exact H|]. split; [exact Hs|].
  exact (leg_distance_covered _ _ _ _ _ _ H Hs).
Defined.

(** ** Where a split segment ends *)

(** C5, as the code has it.  When a pass splits the segment, the piece it
    appends starts at the current location and ends at the point named
    after the segment index whose latitude and longitude are the means of
    those of the current and the next location: the midpoint, whatever the
    fraction of the segment the pass covers.  That point becomes the
    current location. *)
Theorem split_ends_at_midpoint (s : State) :
  splits s ->
  exists piece : ScheduledSegment,
    modified_segments (pass s) = modified_segments s ++ [piece] /\
    sched_start_location piece = current_location s /\
    sched_end_location piece =
      mkLocation ("Intermediate point " +:+ pretty (segment_index s))
        ((lat (current_location s) + lat (next_location s)) / 2)%Q
        ((lng (current_location s) + lng (next_location s)) / 2)%Q None /\
    lat (sched_end_location piece)
      == interpolate (1 # 2) (lat (current_location s)) (lat (next_location s)) /\
    lng (sched_end_location piece)
      == interpolate (1 # 2) (lng (current_location s)) (lng (next_location s)) /\
    current_location (pass s) = sched_end_location piece.
Proof.
  intros [Hd Hp]. pose proof (insertions_frame s) as F.
  destruct (pass_cases s) as [[Hm _]|[[_ E]|(_ & Hn & _)]].
  - unfold drives in Hd. apply Qle_not_lt in Hm. contradiction.
  - exists (partial_segment (insertions s)). rewrite E. simpl.
    unfold intermediate_point.
    rewrite (same_modified_segments _ _ F), (same_current_location _ _ F),
      (same_next_location _ _ F), (same_segment_index _ _ F).
    repeat split; simpl; unfold interpolate; field.
  - contradiction.
Qed.

Lemma long_haul_start_splits : splits long_haul_start.
Proof. split; vm_compute; reflexivity. Qed.

Lemma split_ends_at_midpoint_witness :
  splits long_haul_start /\
  exists piece : ScheduledSegment,
    modified_segments (pass long_haul_start) = [piece] /\
    lat (sched_end_location piece) == 2.
Proof.
  split; [exact long_haul_start_splits|].
  destruct (split_ends_at_midpoint long_haul_start long_haul_start_splits)
    as (piece & Hm & _ & _ & Hlat & _).
  exists piece. split; [exact Hm|]. rewrite Hlat. reflexivity.
Defined.

Lemma long_haul_start_visited :
  visited 0 0 sample_locations long_haul long_haul_start.
Proof.
  apply (visited_first _ _ _ _ loc_A); [reflexivity | simpl; lia | reflexivity].
Qed.

(** C5, as stated, fails: the first pass of [long_haul] drives 8 of the 32
    hours of the leg from latitude 0 to latitude 4, a quarter of the way,
    and the piece ends at latitude 2, not 1. *)
Lemma split_end_not_proportional :
  ~ (forall (now : Z) (current_cycle_hours : Q) (locations : list Location)
       (segments : list RouteSegment) (s : State) (piece : ScheduledSegment),
        visited now current_cycle_hours locations segments s ->
        segment_processed s = false ->
        splits s ->
        last (modified_segments (pass s)) = Some piece ->
        lat (sched_end_location piece)
          == interpolate (segment_progress (insertions s))
               (lat (current_location s)) (lat (next_location s)) /\
        lng (sched_end_location piece)
          == interpolate (segment_progress (insertions s))
               (lng (current_location s)) (lng (next_location s))).
Proof.
  intros H.
  destruct (H 0%Z 0%Q sample_locations long_haul long_haul_start
              (partial_segment (insertions long_haul_start))
              long_haul_start_visited eq_refl long_haul_start_splits eq_refl)
    as [Hlat _].
  vm_compute in Hlat. discriminate.
Qed.

(** ** The clocks of the 11-hour and 14-hour rules *)

Section Clocks.

Local Open Scope Q_scope.

(** The drivable time of a pass is within each of the five limits. *)
Lemma max_driving_time_le (s : State) :
  max_driving_time s <= available_driving_hours s /\
  max_driving_time s <= available_window_hours s /\
  max_driving_time s <= duration (remaining_segment s) /\
  max_driving_time s <= MAX_DRIVING_WITHOUT_BREAK - hours_since_break s /\
  max_driving_time s <= remaining_cycle_hours s.
Proof. unfold max_driving_time. apply min5_le. Qed.

(** A pass leaves both clocks non-negative, whatever they were: a rest
    restores them, and a drive takes off them no more than the smaller of
    the two. *)
Lemma pass_clocks_nonneg (s : State) : clocks_nonneg (pass s).
Proof.
  unfold clocks_nonneg.
  destruct (max_driving_time_le (insertions s)) as (H1 & H2 & H3 & _).
  destruct (pass_cases s) as [[_ E]|[[_ E]|(Hd & Hn & E)]]; rewrite E; simpl.
  - unfold MAX_DRIVING_HOURS, MAX_DUTY_WINDOW. split; lra.
  - split; lra.
  - pose proof (full_progress _ _ Hd H3 Hn) as Hf. split; lra.
Qed.

(** At the head of the inner loop both clocks are non-negative. *)
Lemma visited_clocks_nonneg (now : Z) (current_cycle_hours : Q)
    (locations : list Location) (segments : list RouteSegment) (s : State) :
  visited now current_cycle_hours locations segments s -> clocks_nonneg s.
Proof.
  induction 1 as [l0 s _ _ B | s _ _ _ | s s' _ IH _ _ B].
  - destruct (begin_segment_done _ _ _ _ B) as (-> & _).
    unfold clocks_nonneg. simpl.
    unfold MAX_DRIVING_HOURS, MAX_DUTY_WINDOW. split; lra.
  - apply pass_clocks_nonneg.
  - destruct (begin_segment_done _ _ _ _ B) as (-> & _). exact IH.
Qed.


End Clocks.

Lemma visited_next_state (now : Z) (current_cycle_hours : Q)
    (locations : list Location) (segments : list RouteSegment) (s : State) :
  visited now current_cycle_hours locations segments s ->
  segment_processed s = true ->
  (segment_index s < length segments)%nat ->
  is_done (begin_segment locations segments (vars s)) = true ->
  visited now current_cycle_hours locations segments
    (next_state locations segments s).
Proof.
  intros V Hp Hi Hd. apply (visited_next _ _ _ _ s); try assumption.
  apply done_result. exact Hd.
Qed.

Lemma fast_legs_last_visited :
  visited 0 0 sample_locations fast_legs fast_legs_last.
Proof.
  apply visited_next_state;
    [|vm_compute; reflexivity|vm_compute; lia|vm_compute; reflexivity].
  apply visited_pass; [|vm_compute; reflexivity].
  apply visited_pass; [|reflexivity].
  apply (visited_first _ _ _ _ loc_A); [reflexivity|simpl; lia|reflexivity].
Qed.

Lemma fast_legs_last_unprocessed : segment_processed fast_legs_last = false.
Proof. vm_compute. reflexivity. Qed.



(** ** The timeline of a schedule *)

Section Timeline.

Lemma stops_of_app (l1 l2 : list event) :
  stops_of (l1 ++ l2) = stops_of l1 ++ stops_of l2.
Proof.
  induction l1 as [|[p|g] l1 IH]; simpl; [reflexivity| |exact IH].
  by rewrite IH.
Qed.

Lemma segments_of_app (l1 l2 : list event) :
  segments_of (l1 ++ l2) = segments_of l1 ++ segments_of l2.
Proof.
  induction l1 as [|[p|g] l1 IH]; simpl; [reflexivity|exact IH|].
  by rewrite IH.
Qed.

Lemma finish_app (t : Z) (l1 l2 : list event) :
  finish t (l1 ++ l2) = finish (finish t l1) l2.
Proof. revert t. induction l1 as [|e l1 IH]; intros t; simpl; [reflexivity|apply IH]. Qed.

Lemma chronological_app (t : Z) (l1 l2 : list event) :
  chronological t l1 -> chronological (finish t l1) l2 ->
  chronological t (l1 ++ l2).
Proof.
  revert t. induction l1 as [|e l1 IH]; intros t H1 H2; simpl in *; [exact H2|].
  destruct H1 as (Ha & Hb & Hc). repeat split; [exact Ha|exact Hb|].
  by apply IH.
Qed.

Variable t0 : Z.

(** The timeline depends on the stops, the driven segments and the current
    time only. *)
Lemma on_timeline_ext (v v' : Vars) :
  stops v' = stops v -> modified_segments v' = modified_segments v ->
  current_time v' = current_time v ->
  on_timeline t0 v -> on_timeline t0 v'.
Proof.
  intros E1 E2 E3 (trace & H1 & H2 & H3 & H4 & H5).
  exists trace. rewrite E1, E2, E3. by repeat split.
Qed.

(** A stop of a duration that is not negative extends the timeline. *)
Lemma on_timeline_append_stop (loc : Location) (ty : StopType) (h : Q) (v : Vars) :
  (0 <= h)%Q -> on_timeline t0 v -> on_timeline t0 (append_stop loc ty h v).
Proof.
  intros Hh (trace & H1 & H2 & H3 & H4 & H5).
  pose proof (timedelta_hours_nonneg h Hh) as Hd.
  exists (trace ++ [EStop (mkStop loc (current_time v)
                      (current_time v + Datetime.timedelta_hours h) ty h)]).
  unfold append_stop. simpl.
  rewrite stops_of_app, segments_of_app, finish_app, H1, H2, H4. simpl.
  repeat split.
  - apply app_nil_r.
  - apply chronological_app; [exact H3|]. rewrite H4. simpl. lia.
  - apply Forall_app. split; [exact H5|]. by repeat constructor.
Qed.

(** So does a driven segment that starts at the current time. *)
Lemma on_timeline_drive (h : Q) (g : ScheduledSegment) (v v' : Vars) :
  (0 <= h)%Q -> on_timeline t0 v ->
  stops v' = stops v ->
  modified_segments v' = modified_segments v ++ [g] ->
  start_time g = current_time v ->
  end_time g = (current_time v + Datetime.timedelta_hours h)%Z ->
  current_time v' = (current_time v + Datetime.timedelta_hours h)%Z ->
  on_timeline t0 v'.
Proof.
  intros Hh (trace & H1 & H2 & H3 & H4 & H5) E1 E2 Es Ee Ec.
  pose proof (timedelta_hours_nonneg h Hh) as Hd.
  exists (trace ++ [ESegment g]).
  rewrite stops_of_app, segments_of_app, finish_app, H1, H2, H4, E1, E2, Ec.
  simpl. repeat split.
  - apply app_nil_r.
  - apply chronological_app; [exact H3|]. rewrite H4. simpl. lia.
  - exact Ee.
  - exact H5.
Qed.

Lemma check_break_timeline (s : State) :
  on_timeline t0 s -> on_timeline t0 (check_break s).
Proof.
  intros H. unfold check_break. destruct (Qle_bool _ _); [|exact H].
  apply (on_timeline_ext (append_stop (current_location s) break MIN_BREAK_DURATION s));
    try reflexivity.
  apply on_timeline_append_stop; [discriminate|exact H].
Qed.

Lemma check_fuel_timeline (s : State) :
  on_timeline t0 s -> on_timeline t0 (check_fuel s).
Proof.
  intros H. unfold check_fuel. destruct (Qle_bool _ _); [|exact H].
  apply (on_timeline_ext (append_stop (current_location s) fuel FUELING_DURATION s));
    try reflexivity.
  apply on_timeline_append_stop; [discriminate|exact H].
Qed.

Lemma handle_pickup_timeline (s : State) :
  on_timeline t0 s -> on_timeline t0 (handle_pickup s).
Proof.
  intros H. unfold handle_pickup. destruct (is_pickup s); [|exact H].
  apply (on_timeline_ext (append_stop (next_location s) pickup PICKUP_DROPOFF_DURATION s));
    try reflexivity.
  apply on_timeline_append_stop; [discriminate|exact H].
Qed.

Lemma handle_dropoff_timeline (s : State) :
  on_timeline t0 s -> on_timeline t0 (handle_dropoff s).
Proof.
  intros H. unfold handle_dropoff. destruct (is_dropoff s); [|exact H].
  apply (on_timeline_ext (append_stop (next_location s) dropoff PICKUP_DROPOFF_DURATION s));
    try reflexivity.
  apply on_timeline_append_stop; [discriminate|exact H].
Qed.

Lemma insertions_timeline (s : State) :
  on_timeline t0 s -> on_timeline t0 (insertions s).
Proof.
  intros H. unfold insertions.
  by apply handle_dropoff_timeline, handle_pickup_timeline,
    check_fuel_timeline, check_break_timeline.
Qed.

Lemma take_rest_timeline (s : State) :
  on_timeline t0 s -> on_timeline t0 (take_rest s).
Proof.
  intros H.
  apply (on_timeline_ext (append_stop (current_location s) rest MIN_REST_DURATION s));
    try reflexivity.
  apply on_timeline_append_stop; [discriminate|exact H].
Qed.

Lemma drive_partial_timeline (s : State) :
  (0 <= max_driving_time s)%Q ->
  on_timeline t0 s -> on_timeline t0 (drive_partial s).
Proof.
  intros Hm H.
  by apply (on_timeline_drive (max_driving_time s) (partial_segment s) s).
Qed.

Lemma drive_complete_timeline (s : State) :
  (0 <= duration (remaining_segment s))%Q ->
  on_timeline t0 s -> on_timeline t0 (drive_complete s).
Proof.
  intros Hm H.
  by apply (on_timeline_drive (duration (remaining_segment s))
              (complete_segment s) s).
Qed.

Lemma pass_timeline (s : State) :
  on_timeline t0 s -> on_timeline t0 (pass s).
Proof.
  intros H. apply insertions_timeline in H.
  destruct (max_driving_time_le (insertions s)) as (_ & _ & H3 & _).
  destruct (pass_cases s) as [[_ E]|[[[Hd _] E]|(Hd & _ & E)]]; rewrite E;
    unfold drives in *.
  - by apply take_rest_timeline.
  - apply drive_partial_timeline; [|exact H]. by apply Qlt_le_weak.
  - apply drive_complete_timeline; [|exact H].
    apply Qlt_le_weak. eapply Qlt_le_trans; [exact Hd|exact H3].
Qed.

Lemma process_segment_timeline (gas : nat) (s s' : State) :
  process_segment gas s = Done s' -> on_timeline t0 s -> on_timeline t0 s'.
Proof.
  revert s. induction gas as [|gas IH]; intros s H T; simpl in H;
    destruct (segment_processed s); try congruence.
  apply (IH (pass s) H). by apply pass_timeline.
Qed.

Lemma segment_loop_timeline (gas n : nat) (locations : list Location)
    (segments : list RouteSegment) (v v' : Vars) :
  segment_loop gas locations segments n v = Done v' ->
  on_timeline t0 v -> on_timeline t0 v'.
Proof.
  revert v. induction n as [|n IH]; intros v H T; simpl in H;
    destruct (segment_index v <? length segments)%nat; try congruence.
  destruct (begin_segment locations segments v) as [s| |] eqn:B;
    simpl in H; try discriminate.
  destruct (process_segment gas s) as [s'| |] eqn:P; simpl in H; try discriminate.
  destruct (begin_segment_done _ _ _ _ B) as (Hv & _).
  apply (IH _ H). apply (process_segment_timeline _ _ _ P). by rewrite Hv.
Qed.

End Timeline.

Lemma initial_vars_timeline (now : Z) (current_cycle_hours : Q) (l0 : Location) :
  on_timeline (Datetime.replace_to_hour now) (initial_vars now current_cycle_hours l0).
Proof.
  exists [EStop (mkStop l0 (Datetime.replace_to_hour now)
                   (Datetime.replace_to_hour now) start 0)].
  simpl. repeat split; try lia.
  repeat constructor. unfold stop_timed. simpl.
  change (Datetime.timedelta_hours 0) with 0%Z. lia.
Qed.

(** C7.  The stops and the scheduled segments of a returned schedule are
    the events of one timeline, each list in its order, that begins at the
    start time and ends at the end time: every event starts no earlier than
    the previous one ended and ends no earlier than it starts, and every
    stop leaves when its duration has elapsed since its arrival. *)
Theorem schedule_chronological (gas : nat) (now : Z) (current_cycle_hours : Q)
    (route_data result : dict) :
  calculate_schedule gas now current_cycle_hours route_data = Done result ->
  exists (t0 : Z) (trace : list event),
    result !! "start_time" = Some (VDatetime t0) /\
    result !! "stops" = Some (VStops (stops_of trace)) /\
    result !! "segments" = Some (VSegments (segments_of trace)) /\
    result !! "end_time" = Some (VDatetime (finish t0 trace)) /\
    chronological t0 trace /\
    Forall stop_timed (stops_of trace).
Proof.
  unfold calculate_schedule. intros H.
  destruct (getitem route_data "locations") as [[]| |]; simpl in H; try discriminate.
  destruct (index l 0) as [l0| |]; simpl in H; try discriminate.
  destruct (getitem route_data "segments") as [[]| |]; simpl in H; try discriminate.
  destruct (segment_loop _ _ _ _ _) as [v| |] eqn:L; simpl in H; try discriminate.
  destruct (index_last l) as [ln| |]; simpl in H; try discriminate.
  injection H as <-.
  pose proof (segment_loop_timeline _ _ _ _ _ _ _ L
                (initial_vars_timeline now current_cycle_hours l0))
    as (trace & H1 & H2 & H3 & H4 & H5).
  exists (Datetime.replace_to_hour now),
    (trace ++ [EStop (mkStop ln (current_time v) (current_time v) final 0)]).
  rewrite stops_of_app, segments_of_app, finish_app, H1, H2, H4. simpl.
  rewrite app_nil_r.
  repeat split.
  - rewrite lookup_insert_ne by discriminate. apply lookup_insert_eq.
  - do 3 (rewrite lookup_insert_ne by discriminate). apply lookup_insert_eq.
  - do 2 (rewrite lookup_insert_ne by discriminate). apply lookup_insert_eq.
  - apply lookup_insert_eq.
  - apply chronological_app; [exact H3|]. rewrite H4. simpl. lia.
  - apply Forall_app. split; [exact H5|]. repeat constructor.
    unfold stop_timed. simpl. change (Datetime.timedelta_hours 0) with 0%Z. lia.
Qed.

Lemma schedule_chronological_witness :
  calculate_schedule 8 0 0 (route_dict day_trip) = Done day_trip_schedule /\
  exists (t0 : Z) (trace : list event),
    day_trip_schedule !! "start_time" = Some (VDatetime t0) /\
    day_trip_schedule !! "stops" = Some (VStops (stops_of trace)) /\
    day_trip_schedule !! "segments" = Some (VSegments (segments_of trace)) /\
    day_trip_schedule !! "end_time" = Some (VDatetime (finish t0 trace)) /\
    chronological t0 trace /\
    Forall stop_timed (stops_of trace).
Proof.
  assert (H : calculate_schedule 8 0 0 (route_dict day_trip) = Done day_trip_schedule)
    by (apply done_result; reflexivity).
  split; [exact H|]. exact (schedule_chronological _ _ _ _ _ H).
Defined.

(** ** The log partitioner never divides by zero *)

Section Mileage.

Import LogGen.

Lemma log_segments_cons (day_start day_end : Z) (acc : LogEntry * Q)
    (g : ScheduledSegment) (segments : list ScheduledSegment) :
  log_segments day_start day_end acc (g :: segments) =
  bind (log_segment day_start day_end acc g)
    (fun acc' => log_segments day_start day_end acc' segments).
Proof. reflexivity. Qed.

Lemma total_seconds_pos (d : Z) : (0 < d)%Z -> (0 < Datetime.total_seconds d)%Q.
Proof.
  intros H. unfold Datetime.total_seconds, Datetime.MICROS_PER_SECOND.
  apply Qlt_shift_div_l; [reflexivity|].
  rewrite Qmult_0_l. unfold Qlt. simpl. lia.
Qed.

(** The division of line 81 has a positive divisor. *)
Lemma truediv_total_seconds (x : Q) (d : Z) :
  (0 < d)%Z ->
  truediv x (Datetime.total_seconds d) = Done (x / Datetime.total_seconds d)%Q.
Proof.
  intros H. unfold truediv.
  destruct (Qeq_bool (Datetime.total_seconds d) 0) eqn:E; [|reflexivity].
  apply Qeq_bool_iff in E. pose proof (total_seconds_pos d H) as P.
  rewrite E in P. discriminate.
Qed.

Lemma add_activity_to_log_date (e : LogEntry) (a : Activity)
    (start_time end_time day_start : Z) :
  date (add_activity_to_log e a start_time end_time day_start) = date e.
Proof.
  unfold add_activity_to_log. destruct (_ || _); [reflexivity|].
  by destruct a.
Qed.

Variables day_start day_end : Z.

Lemma log_stop_date (e : LogEntry) (p : Stop) :
  date (log_stop day_start day_end e p) = date e.
Proof.
  unfold log_stop. destruct (_ || _); [reflexivity|].
  destruct (stop_type p); try reflexivity; apply add_activity_to_log_date.
Qed.

Lemma log_stops_date (e : LogEntry) (stops : list Stop) :
  date (foldl (log_stop day_start day_end) e stops) = date e.
Proof.
  revert e. induction stops as [|p stops IH]; intros e; simpl; [reflexivity|].
  rewrite IH. apply log_stop_date.
Qed.

(** One segment of the day: the step returns, the entry is still that of
    the same date, and the miles it returns are those it was given when the
    segment has no duration. *)
Lemma log_segment_done (e : LogEntry) (m : Q) (g : ScheduledSegment) :
  exists (e' : LogEntry) (m' : Q),
    log_segment day_start day_end (e, m) g = Done (e', m') /\
    date e' = date e /\
    (end_time g = start_time g -> m' = m).
Proof.
  unfold log_segment.
  destruct ((day_end <=? start_time g) || (end_time g <? day_start))%Z.
  - by exists e, m.
  - destruct (start_time g <? end_time g)%Z eqn:L.
    + apply Z.ltb_lt in L. rewrite truediv_total_seconds by lia.
      eexists _, _. split; [reflexivity|].
      split; [apply add_activity_to_log_date|lia].
    + eexists _, _. split; [reflexivity|].
      split; [apply add_activity_to_log_date|done].
Qed.

(** The miles a segment adds do not depend on the log entry. *)
Lemma log_segment_miles (e1 e2 : LogEntry) (m : Q) (g : ScheduledSegment) :
  snd <$> log_segment day_start day_end (e1, m) g =
  snd <$> log_segment day_start day_end (e2, m) g.
Proof.
  unfold log_segment.
  destruct ((day_end <=? start_time g) || (end_time g <? day_start))%Z;
    [reflexivity|].
  destruct (start_time g <? end_time g)%Z eqn:L; [|reflexivity].
  apply Z.ltb_lt in L. rewrite truediv_total_seconds by lia. reflexivity.
Qed.

Lemma log_segments_done (e : LogEntry) (m : Q) (segments : list ScheduledSegment) :
  exists (e' : LogEntry) (m' : Q),
    log_segments day_start day_end (e, m) segments = Done (e', m') /\
    date e' = date e.
Proof.
  revert e m. induction segments as [|g segments IH]; intros e m.
  - by exists e, m.
  - rewrite log_segments_cons.
    destruct (log_segment_done e m g) as (e1 & m1 & -> & D1 & _).
    destruct (IH e1 m1) as (e' & m' & E & D). exists e', m'.
    split; [exact E|congruence].
Qed.

Lemma log_segments_miles (e1 e2 : LogEntry) (m : Q)
    (segments : list ScheduledSegment) :
  snd <$> log_segments day_start day_end (e1, m) segments =
  snd <$> log_segments day_start day_end (e2, m) segments.
Proof.
  revert e1 e2 m. induction segments as [|g segments IH]; intros e1 e2 m.
  - reflexivity.
  - rewrite !log_segments_cons.
    pose proof (log_segment_miles e1 e2 m g) as Hm.
    destruct (log_segment_done e1 m g) as (e1' & m1 & E1 & _ & _).
    destruct (log_segment_done e2 m g) as (e2' & m2 & E2 & _ & _).
    rewrite E1, E2 in *. injection Hm as ->. apply IH.
Qed.

(** A segment without duration can be left out of the day's mileage. *)
Lemma log_segments_zero_duration (e : LogEntry) (m : Q)
    (before after : list ScheduledSegment) (g : ScheduledSegment) :
  end_time g = start_time g ->
  snd <$> log_segments day_start day_end (e, m) (before ++ g :: after) =
  snd <$> log_segments day_start day_end (e, m) (before ++ after).
Proof.
  intros Hz. revert e m. induction before as [|a before IH]; intros e m.
  - rewrite app_nil_l, log_segments_cons.
    destruct (log_segment_done e m g) as (e' & m' & -> & _ & Hm).
    rewrite (Hm Hz). apply log_segments_miles.
  - rewrite <- !app_comm_cons, !log_segments_cons.
    destruct (log_segment_done e m a) as (e' & m' & -> & _ & _). apply IH.
Qed.

End Mileage.


Section Days.

Import LogGen.

(** The log entry of a day is always returned, for that date. *)
Lemma day_log_done (stops : list Stop) (segments : list ScheduledSegment)
    (current_date : Z) :
  exists e : LogEntry,
    day_log stops segments current_date = Done e /\ date e = current_date.
Proof.
  unfold day_log.
  destruct (log_segments_done (Datetime.combine current_date 0)
              (Datetime.combine current_date 0 + Datetime.timedelta_days 1)
              (foldl (log_stop (Datetime.combine current_date 0)
                        (Datetime.combine current_date 0 + Datetime.timedelta_days 1))
                 (mkLogEntry current_date [] [] [] [] 0 "Sample Carrier"
                    "Main Office Address" "Home Terminal Address" "N/A"
                    "No remarks") stops) 0%Q segments) as (e & m & -> & Hd).
  rewrite log_stops_date in Hd. simpl in Hd.
  eexists. split; [reflexivity|].
  destruct (concat (map (stop_remark current_date) stops));
    destruct (concat (map (stop_shipping_doc current_date) stops)); exact Hd.
Qed.

(** The miles of a day are the rounded sum left by the segment loop. *)
Lemma day_log_total_miles (stops : list Stop) (segments : list ScheduledSegment)
    (current_date : Z) :
  total_miles <$> day_log stops segments current_date =
  (fun acc => Py.round (snd acc)) <$>
    log_segments (Datetime.combine current_date 0)
      (Datetime.combine current_date 0 + Datetime.timedelta_days 1)
      (foldl (log_stop (Datetime.combine current_date 0)
                (Datetime.combine current_date 0 + Datetime.timedelta_days 1))
         (mkLogEntry current_date [] [] [] [] 0 "Sample Carrier"
            "Main Office Address" "Home Terminal Address" "N/A" "No remarks")
         stops, 0%Q) segments.
Proof.
  unfold day_log.
  destruct (log_segments _ _ _ segments) as [[e m]| |]; [|reflexivity..].
  destruct (concat (map (stop_remark current_date) stops));
    destruct (concat (map (stop_shipping_doc current_date) stops)); reflexivity.
Qed.

Lemma day_log_zero_duration (stops : list Stop)
    (before after : list ScheduledSegment) (g : ScheduledSegment)
    (current_date : Z) :
  end_time g = start_time g ->
  total_miles <$> day_log stops (before ++ g :: after) current_date =
  total_miles <$> day_log stops (before ++ after) current_date.
Proof.
  intros Hz. rewrite !day_log_total_miles.
  pose proof (log_segments_zero_duration (Datetime.combine current_date 0)
    (Datetime.combine current_date 0 + Datetime.timedelta_days 1)
    (foldl (log_stop (Datetime.combine current_date 0)
              (Datetime.combine current_date 0 + Datetime.timedelta_days 1))
       (mkLogEntry current_date [] [] [] [] 0 "Sample Carrier"
          "Main Office Address" "Home Terminal Address" "N/A" "No remarks")
       stops) 0%Q before after g Hz) as H.
  rewrite (outcome_fmap_compose snd Py.round (log_segments _ _ _ (before ++ g :: after))).
  rewrite (outcome_fmap_compose snd Py.round (log_segments _ _ _ (before ++ after))).
  by rewrite H.
Qed.

(** The day loop, allowed enough iterations, returns one entry per date
    from the current date to the end date. *)
Lemma days_loop_done (n : nat) (stops : list Stop)
    (segments : list ScheduledSegment) (current_date end_date : Z)
    (logs : list LogEntry) :
  (end_date + 1 - current_date <= Z.of_nat n)%Z ->
  exists logs' : list LogEntry,
    days_loop n stops segments current_date end_date logs = Done logs' /\
    map date logs' = map date logs ++ seqZ current_date (end_date + 1 - current_date).
Proof.
  revert current_date logs.
  induction n as [|n IH]; intros current_date logs Hn; simpl;
    destruct (current_date <=? end_date)%Z eqn:L.
  - apply Z.leb_le in L. lia.
  - apply Z.leb_gt in L. exists logs. split; [reflexivity|].
    rewrite seqZ_nil by lia. by rewrite app_nil_r.
  - apply Z.leb_le in L.
    destruct (day_log_done stops segments current_date) as (e & -> & Hd).
    simpl.
    destruct (IH (current_date + 1)%Z (logs ++ [e])) as (logs' & -> & Hm); [lia|].
    exists logs'. split; [reflexivity|].
    rewrite Hm, map_app, <- app_assoc. simpl. rewrite Hd.
    rewrite (seqZ_cons current_date) by lia.
    replace (Z.succ current_date) with (current_date + 1)%Z by lia.
    replace (Z.pred (end_date + 1 - current_date))
      with (end_date + 1 - (current_date + 1))%Z by lia.
    reflexivity.
  - apply Z.leb_gt in L. exists logs. split; [reflexivity|].
    rewrite seqZ_nil by lia. by rewrite app_nil_r.
Qed.

(** The day loop on two lists of segments that give every day the same
    miles returns the same miles. *)
Lemma days_loop_miles (n : nat) (stops : list Stop)
    (segments segments' : list ScheduledSegment) (current_date end_date : Z)
    (logs logs' : list LogEntry) :
  (forall d : Z,
     total_miles <$> day_log stops segments d =
     total_miles <$> day_log stops segments' d) ->
  map total_miles logs = map total_miles logs' ->
  map total_miles <$> days_loop n stops segments current_date end_date logs =
  map total_miles <$> days_loop n stops segments' current_date end_date logs'.
Proof.
  intros Hday. revert current_date logs logs'.
  induction n as [|n IH]; intros current_date logs logs' Hl; simpl;
    destruct (current_date <=? end_date)%Z;
    try reflexivity; try (by rewrite <- Hl); try (simpl; congruence).
  pose proof (Hday current_date) as Hd.
  destruct (day_log_done stops segments current_date) as (e & E & _).
  destruct (day_log_done stops segments' current_date) as (e' & E' & _).
  rewrite E, E' in *. injection Hd as Hd. simpl.
  apply IH. rewrite !map_app, Hl. simpl. by rewrite Hd.
Qed.

End Days.

Section LogSheets.

Import LogGen.

(** On a schedule that has its four keys, [generate_log_sheets] returns one
    entry per date from the date of the start time to the last date of
    lines 25-30: the date of the end time, and the day after it when the
    end time is not midnight. *)
Lemma generate_log_sheets_dates (schedule_data : dict) (t_start t_end : Z)
    (stops : list Stop) (segments : list ScheduledSegment) :
  schedule_data !! "start_time" = Some (VDatetime t_start) ->
  schedule_data !! "end_time" = Some (VDatetime t_end) ->
  schedule_data !! "stops" = Some (VStops stops) ->
  schedule_data !! "segments" = Some (VSegments segments) ->
  exists logs : list LogEntry,
    generate_log_sheets schedule_data = Done logs /\
    map date logs =
      seqZ (Datetime.date t_start)
        (last_date t_end + 1 - Datetime.date t_start).
Proof.
  intros H1 H2 H3 H4. unfold generate_log_sheets, getitem.
  rewrite H1, H2, H3, H4. simpl.
  destruct (Z.to_nat (last_date t_end + 1 - Datetime.date t_start)) as [|n] eqn:E.
  - exists []. split; [reflexivity|]. rewrite seqZ_nil by lia. reflexivity.
  - rewrite <- E.
    destruct (days_loop_done
                (Z.to_nat (last_date t_end + 1 - Datetime.date t_start))
                stops segments (Datetime.date t_start) (last_date t_end) [])
      as (logs & Hl & Hd); [lia|].
    exists logs. split; [exact Hl|exact Hd].
Qed.

(** C9.  [generate_log_sheets] never raises ZeroDivisionError, and a
    scheduled segment whose end time is its start time adds no distance to
    the miles of any day: the miles of the log entries are those of the
    schedule without that segment. *)
Theorem mileage_never_divides_by_zero (schedule_data : dict) :
  generate_log_sheets schedule_data <> Raised ZeroDivisionError /\
  forall (before after : list ScheduledSegment) (g : ScheduledSegment),
    schedule_data !! "segments" = Some (VSegments (before ++ g :: after)) ->
    end_time g = start_time g ->
    map total_miles <$> generate_log_sheets schedule_data =
    map total_miles <$>
      generate_log_sheets
        (<["segments" := VSegments (before ++ after)]> schedule_data).
Proof.
  split.
  - unfold generate_log_sheets, getitem.
    destruct (schedule_data !! "start_time") as [[]|]; simpl; try discriminate.
    destruct (schedule_data !! "end_time") as [[]|]; simpl; try discriminate.
    destruct (Z.to_nat _) as [|n] eqn:E; try discriminate. rewrite <- E.
    destruct (schedule_data !! "stops") as [[]|]; simpl; try discriminate;
      destruct (schedule_data !! "segments") as [[]|]; simpl; try discriminate.
    match goal with
    | |- days_loop ?n ?p ?g ?c ?e [] <> _ =>
        destruct (days_loop_done n p g c e []) as (logs & -> & _); [lia|]
    end.
    discriminate.
  - intros before after g Hs Hz. unfold generate_log_sheets, getitem.
    rewrite (lookup_insert_ne schedule_data "segments" "start_time") by done.
    rewrite (lookup_insert_ne schedule_data "segments" "end_time") by done.
    rewrite (lookup_insert_ne schedule_data "segments" "stops") by done.
    rewrite lookup_insert_eq, Hs.
    destruct (schedule_data !! "start_time") as [[]|]; simpl; try reflexivity.
    destruct (schedule_data !! "end_time") as [[]|]; simpl; try reflexivity.
    destruct (Z.to_nat _) as [|n] eqn:E; try reflexivity. rewrite <- E.
    destruct (schedule_data !! "stops") as [[]|]; simpl; try reflexivity.
    apply days_loop_miles; [|reflexivity].
    intros d. by apply day_log_zero_duration.
Qed.

End LogSheets.

Lemma mileage_never_divides_by_zero_witness :
  halted_schedule !! "segments" = Some (VSegments ([] ++ halted :: [one_hour])) /\
  end_time halted = start_time halted /\
  map LogGen.total_miles <$> LogGen.generate_log_sheets halted_schedule =
  map LogGen.total_miles <$>
    LogGen.generate_log_sheets
      (<["segments" := VSegments ([] ++ [one_hour])]> halted_schedule).
Proof.
  assert (Hs : halted_schedule !! "segments"
               = Some (VSegments ([] ++ halted :: [one_hour])))
    by (vm_compute; reflexivity).
  assert (Hz : end_time halted = start_time halted) by reflexivity.
  split; [exact Hs|]. split; [exact Hz|].
  exact (proj2 (mileage_never_divides_by_zero halted_schedule) [] [one_hour] halted Hs Hz).
Defined.

(** The miles of [halted_schedule]: the 55 miles of the hour driven, none
    of the 100 miles of the segment without duration. *)
Example halted_schedule_miles :
  map LogGen.total_miles <$> LogGen.generate_log_sheets halted_schedule
  = Done [55%Z; 0%Z].
Proof. vm_compute. reflexivity. Qed.

(** ** The days of the log *)

(** C6, on the code.  The trip of [monday_schedule] starts on 2024-01-15 at
    06:00 and ends the same day at 17:45, yet [generate_log_sheets] returns
    two entries: one for 2024-01-15, with the 6 intervals and the 510 miles
    of the trip, and one for 2024-01-16, a day with no activity at all. *)
Theorem log_entry_for_the_day_after :
  monday_schedule !! "start_time" = Some (VDatetime 63840895200000000) /\
  monday_schedule !! "end_time" = Some (VDatetime 63840937500000000) /\
  Datetime.date 63840895200000000 = 738899%Z /\
  Datetime.date 63840937500000000 = 738899%Z /\
  (fun logs => map (fun e => (LogGen.date e, activity_count e, LogGen.total_miles e)) logs)
    <$> LogGen.generate_log_sheets monday_schedule
  = Done [(738899%Z, 6%nat, 510%Z); (738900%Z, 0%nat, 0%Z)].
Proof. repeat split; vm_compute; reflexivity. Qed.
